(** * Jira Sprint Dashboard: a shallow embedding of [script.js]

    The dashboard script keeps two pieces of mutable state ([state.burnupChart]
    and [state.fullData]) and a handful of DOM elements.  Every function of the
    script is embedded as a computation over one explicit [State] record that
    gathers the script's [state] object, the DOM elements of [elements], the
    console and the Chart.js registry.  A JavaScript exception is an outcome of
    its own that carries the state reached when it was thrown.

    Numbers read from [data.json] are modelled as exact rationals ([Q]); a
    [null] entry of a series is [None]. *)

From Stdlib Require Import List String Ascii ZArith QArith Qround Qminmax.
From Stdlib Require Import Bool Arith Lia Permutation Sorted.
Import ListNotations.

Local Open Scope string_scope.

(** ** JavaScript values used by the script *)

Module Js.

(** A series of [data.json]: numbers, with [null] for a missing point. *)
Definition series := list (option Q).

(** [v != null] as used by the [filter] callbacks. *)
Definition not_null (v : option Q) : bool :=
  match v with Some _ => true | None => false end.

(** Numeric coercion of a series entry ([null] coerces to [0]). *)
Definition to_number (v : option Q) : Q :=
  match v with Some q => q | None => 0%Q end.

(** [v || 0] for [v] an array read: [undefined] (out of range), [null] and
    [0] are falsy. *)
Definition or_zero (v : option (option Q)) : Q :=
  match v with
  | Some (Some q) => if Qeq_bool q 0 then 0%Q else q
  | _ => 0%Q
  end.

(** [arr[arr.length - 1]]: [undefined] ([None]) on the empty array. *)
Definition last_elem {A} (arr : list A) : option A :=
  nth_error arr (List.length arr - 1).

(** [Math.max(0, ...arr)] for [arr] a series without [null]. *)
Definition max0 (arr : series) : Q :=
  fold_left (fun m v => Qmax m (to_number v)) arr 0%Q.

(** [Math.ceil]. *)
Definition ceil (x : Q) : Z := Qceiling x.

(** A JSON object: its own properties in the order of [Object.keys].  The
    script only reads properties under keys it took from [Object.keys] or
    under fixed names of the data schema, so a read is a read of an own
    property. *)
Definition object (V : Type) := list (string * V).

Fixpoint get {V} (key : string) (obj : object V) : option V :=
  match obj with
  | [] => None
  | (k, v) :: rest => if String.eqb k key then Some v else get key rest
  end.

Definition keys {V} (obj : object V) : list string := map fst obj.

(** [arr.map((x, index) => f x index)]. *)
Fixpoint map_index_from {A B} (k : nat) (f : A -> nat -> B) (arr : list A)
  : list B :=
  match arr with
  | [] => []
  | x :: rest => f x k :: map_index_from (S k) f rest
  end.

Definition map_index {A B} (f : A -> nat -> B) (arr : list A) : list B :=
  map_index_from 0 f arr.

(** The character class [\d] of a JavaScript regular expression. *)
Definition is_digit (c : ascii) : bool :=
  let n := nat_of_ascii c in (48 <=? n)%nat && (n <=? 57)%nat.

Fixpoint skip_non_digits (s : string) : string :=
  match s with
  | EmptyString => EmptyString
  | String c rest => if is_digit c then s else skip_non_digits rest
  end.

Fixpoint leading_digits (s : string) : string :=
  match s with
  | EmptyString => EmptyString
  | String c rest =>
      if is_digit c then String c (leading_digits rest) else EmptyString
  end.

(** [s.match(/\d+/)?.[0]]: the leftmost, longest run of digits of [s], or
    [undefined] ([None]) when [s] holds no digit. *)
Definition match_digits (s : string) : option string :=
  match leading_digits (skip_non_digits s) with
  | EmptyString => None
  | run => Some run
  end.

Definition digit_value (c : ascii) : Z := Z.of_nat (nat_of_ascii c) - 48.

Fixpoint parse_digits (acc : Z) (s : string) : Z :=
  match s with
  | EmptyString => acc
  | String c rest => parse_digits (10 * acc + digit_value c) rest
  end.

(** [parseInt] on a string of decimal digits: the integer the digits write
    (which a JavaScript number holds exactly below [2^53]). *)
Definition parseInt (digits : string) : Z := parse_digits 0 digits.

(** [arr.sort(cmp)].  ECMAScript requires the sort to be stable, and for a
    consistent comparator its result is then determined: the elements in
    ascending order, equal ones in their original order.  The embedding
    computes it by stable insertion: [x], which precedes the elements of
    [sorted] in the array, goes in front of the first element it does not
    compare greater than. *)
Fixpoint sort_insert {A} (cmp : A -> A -> Z) (x : A) (sorted : list A)
  : list A :=
  match sorted with
  | [] => [x]
  | y :: rest =>
      if (cmp x y <=? 0)%Z then x :: y :: rest
      else y :: sort_insert cmp x rest
  end.

Fixpoint sort {A} (cmp : A -> A -> Z) (arr : list A) : list A :=
  match arr with
  | [] => []
  | x :: rest => sort_insert cmp x (sort cmp rest)
  end.

End Js.

(** ** The DOM [<select>] element *)

Module Dom.

(** An [<option>] element: its [value] and its [textContent]. *)
Record option_element := mkOption {
  value : string;
  text : string
}.

(** A single-choice [<select>]: its options in document order and
    [selectedIndex], with [None] for JavaScript's [-1] (nothing selected). *)
Record select := mkSelect {
  options : list option_element;
  selectedIndex : option nat
}.

(** [select.innerHTML = '']. *)
Definition cleared : select := mkSelect [] None.

(** [select.appendChild(option)].  Inserting a node runs the selectedness
    setting algorithm: a drop-down with no selected option selects its first
    option. *)
Definition appendChild (o : option_element) (s : select) : select :=
  mkSelect (options s ++ [o])
           (match selectedIndex s with
            | Some i => Some i
            | None => Some 0%nat
            end).

(** [select.options[select.selectedIndex]]. *)
Definition selected_option (s : select) : option option_element :=
  match selectedIndex s with
  | Some i => nth_error (options s) i
  | None => None
  end.

(** The getter [select.value]: the value of the selected option, the empty
    string when there is none. *)
Definition get_value (s : select) : string :=
  match selected_option s with
  | Some o => value o
  | None => ""
  end.

Fixpoint find_value (v : string) (opts : list option_element) : option nat :=
  match opts with
  | [] => None
  | o :: rest =>
      if String.eqb (value o) v then Some 0%nat
      else option_map S (find_value v rest)
  end.

(** The setter [select.value = v]: the first option whose value is [v]
    becomes the selected one; nothing is selected when there is none. *)
Definition set_value (v : string) (s : select) : select :=
  mkSelect (options s) (find_value v (options s)).

(** The setter [select.selectedIndex = i]. *)
Definition set_selectedIndex (i : nat) (s : select) : select :=
  mkSelect (options s)
           (if (i <? List.length (options s))%nat then Some i else None).

(** [[...select.options].some(opt => opt.value === v)]. *)
Definition some_value (v : string) (s : select) : bool :=
  existsb (fun opt => String.eqb (value opt) v) (options s).

End Dom.

(** ** The data schema of [data.json] *)

(** A bundle of series of one user key.  A property the document leaves out
    reads as [undefined], here [None]. *)
Record SeriesBundle := mkBundle {
  earnedHours : option Js.series;
  actualCost : option Js.series;
  dailyPlannedHours : option Js.series;
  earnedValue : option Js.series;
  plannedValue : option Js.series
}.

Record SprintRecord := mkRecord {
  dates : option (list string);
  users : option (list string);
  charts : option (Js.object SeriesBundle)
}.

Definition SprintDataset := Js.object SprintRecord.

(** ** Chart.js, as far as the script calls it *)

Module ChartJs.

(** One entry of [data.datasets].  [steppped] is the key the script writes
    (Chart.js itself reads [stepped]). *)
Record dataset := mkDataset {
  label : string;
  data : option Js.series;
  borderColor : string;
  backgroundColor : option string;
  fill : bool;
  tension : option Q;
  borderDash : option (list Z);
  pointRadius : option Z;
  steppped : option bool
}.

Record font := mkFont { size : Z; weight : option string }.

Record title := mkTitle {
  display : bool;
  title_text : string;
  title_color : string;
  title_font : font
}.

Record tooltip := mkTooltip {
  tooltip_backgroundColor : string;
  titleColor : string;
  bodyColor : string;
  tooltip_borderColor : string;
  borderWidth : Z;
  padding : Z;
  displayColors : bool;
  boxPadding : Z
}.

(** The options of the category axis [scales.x]. *)
Record x_scale := mkXScale { x_ticks_color : string; x_grid_color : string }.

(** The options of the linear axis [scales.y].  [max] and [suggestedMax] are
    the keys by which Chart.js takes an upper bound of the axis; a key that
    the options object does not carry is [None]. *)
Record y_scale := mkYScale {
  type : string;
  position : string;
  min : option Q;
  max : option Q;
  suggestedMax : option Q;
  y_title : title;
  y_ticks_color : string;
  y_grid_color : string
}.

Record options := mkOptions {
  responsive : bool;
  maintainAspectRatio : bool;
  interaction_mode : string;
  interaction_intersect : bool;
  plugins_title : title;
  legend_labels_color : string;
  legend_labels_font_size : Z;
  plugins_tooltip : tooltip;
  scales_x : x_scale;
  scales_y : y_scale
}.

(** The configuration object handed to [new Chart]. *)
Record configuration := mkConfiguration {
  chart_type : string;
  labels : option (list string);
  datasets : list dataset;
  chart_options : options
}.

(** A chart instance. *)
Record chart := mkChart { id : nat; config : configuration }.

(** The library's side of the drawing surface: the ids of the live instances
    bound to the canvas, the id the next instance gets, and the instance
    whose drawing the canvas shows. *)
Record registry := mkRegistry {
  instances : list nat;
  next_id : nat;
  canvas : option nat
}.

Definition empty : registry := mkRegistry [] 0 None.

Definition is_live (c : chart) (r : registry) : bool :=
  existsb (Nat.eqb (id c)) (instances r).

(** [chart.destroy()]: the instance is released from the canvas and the
    canvas is wiped; nothing happens on an instance destroyed before. *)
Definition destroy (c : chart) (r : registry) : registry :=
  if is_live c r
  then mkRegistry (filter (fun i => negb (Nat.eqb (id c) i)) (instances r))
                  (next_id r) None
  else r.

(** [chart.clear()]: the canvas is wiped, the instance stays bound to it. *)
Definition clear (c : chart) (r : registry) : registry :=
  if is_live c r then mkRegistry (instances r) (next_id r) None else r.

(** [new Chart(canvas, config)].  The constructor refuses a canvas that a
    live instance is bound to ([None]: it throws). *)
Definition create (cfg : configuration) (r : registry)
  : option (chart * registry) :=
  match instances r with
  | [] => let c := mkChart (next_id r) cfg in
          Some (c, mkRegistry [id c] (S (next_id r)) (Some (id c)))
  | _ :: _ => None
  end.

End ChartJs.

(** ** The state of the page *)

(** The elements that carry listeners, and the two functions registered. *)
Inductive target := ViewSelector | SprintFilter | UserFilter.
Inductive handler := HandleViewChange | UpdateSprintDashboard.

(** [state] and [elements] of the script, with the console and the chart
    library.  [sprintControls] is [elements.sprintControls.style.display];
    [chartContainer] is the [innerHTML] written over the container, [None]
    while the container still holds the canvas of [index.html]. *)
Record State := mkState {
  burnupChart : option ChartJs.chart;
  fullData : option SprintDataset;
  viewSelector : Dom.select;
  sprintControls : string;
  sprintFilter : Dom.select;
  userFilter : Dom.select;
  chartContainer : option string;
  listeners : list (target * handler);
  console : list string;
  chartjs : ChartJs.registry
}.

Definition set_burnupChart (c : option ChartJs.chart) (s : State) : State :=
  mkState c (fullData s) (viewSelector s) (sprintControls s) (sprintFilter s)
          (userFilter s) (chartContainer s) (listeners s) (console s)
          (chartjs s).

Definition set_fullData (d : option SprintDataset) (s : State) : State :=
  mkState (burnupChart s) d (viewSelector s) (sprintControls s)
          (sprintFilter s) (userFilter s) (chartContainer s) (listeners s)
          (console s) (chartjs s).

Definition set_viewSelector (v : Dom.select) (s : State) : State :=
  mkState (burnupChart s) (fullData s) v (sprintControls s) (sprintFilter s)
          (userFilter s) (chartContainer s) (listeners s) (console s)
          (chartjs s).

Definition set_sprintControls (d : string) (s : State) : State :=
  mkState (burnupChart s) (fullData s) (viewSelector s) d (sprintFilter s)
          (userFilter s) (chartContainer s) (listeners s) (console s)
          (chartjs s).

Definition set_sprintFilter (f : Dom.select) (s : State) : State :=
  mkState (burnupChart s) (fullData s) (viewSelector s) (sprintControls s) f
          (userFilter s) (chartContainer s) (listeners s) (console s)
          (chartjs s).

Definition set_userFilter (f : Dom.select) (s : State) : State :=
  mkState (burnupChart s) (fullData s) (viewSelector s) (sprintControls s)
          (sprintFilter s) f (chartContainer s) (listeners s) (console s)
          (chartjs s).

Definition set_chartContainer (h : option string) (s : State) : State :=
  mkState (burnupChart s) (fullData s) (viewSelector s) (sprintControls s)
          (sprintFilter s) (userFilter s) h (listeners s) (console s)
          (chartjs s).

Definition set_listeners (l : list (target * handler)) (s : State) : State :=
  mkState (burnupChart s) (fullData s) (viewSelector s) (sprintControls s)
          (sprintFilter s) (userFilter s) (chartContainer s) l (console s)
          (chartjs s).

Definition set_console (c : list string) (s : State) : State :=
  mkState (burnupChart s) (fullData s) (viewSelector s) (sprintControls s)
          (sprintFilter s) (userFilter s) (chartContainer s) (listeners s) c
          (chartjs s).

Definition set_chartjs (r : ChartJs.registry) (s : State) : State :=
  mkState (burnupChart s) (fullData s) (viewSelector s) (sprintControls s)
          (sprintFilter s) (userFilter s) (chartContainer s) (listeners s)
          (console s) r.

(** The page as [index.html] gives it to the script: the view selector with
    its two options, both filters empty, nothing drawn. *)
Definition initial_state : State :=
  mkState None None
          (Dom.mkSelect [Dom.mkOption "sprint" "Sprint View";
                         Dom.mkOption "ev_pv" "EV/PV"] (Some 0%nat))
          "" Dom.cleared Dom.cleared None [] [] ChartJs.empty.

(** ** Computations: state passing with exceptions *)

(** A thrown JavaScript error, with its [message]. *)
Inductive exn :=
| Error (message : string)
| TypeError (message : string)
| SyntaxError (message : string).

Definition message_of (e : exn) : string :=
  match e with Error m | TypeError m | SyntaxError m => m end.

(** A call either returns a value or throws; both leave a state behind,
    since nothing a function has written is undone by a throw. *)
Inductive outcome (A : Type) :=
| Ok (a : A) (s : State)
| Throw (e : exn) (s : State).
Arguments Ok {A} a s.
Arguments Throw {A} e s.

Definition M (A : Type) := State -> outcome A.

Definition ret {A} (a : A) : M A := fun s => Ok a s.

Definition bind {A B} (c : M A) (k : A -> M B) : M B :=
  fun s => match c s with
           | Ok a s' => k a s'
           | Throw e s' => Throw e s'
           end.

Definition throw {A} (e : exn) : M A := fun s => Throw e s.

(** [try { body } catch (error) { handle error }]. *)
Definition try_catch {A} (body : M A) (handle : exn -> M A) : M A :=
  fun s => match body s with
           | Ok a s' => Ok a s'
           | Throw e s' => handle e s'
           end.

Definition read {A} (f : State -> A) : M A := fun s => Ok (f s) s.
Definition write (f : State -> State) : M unit := fun s => Ok tt (f s).

(** The state a call leaves behind, returned or thrown. *)
Definition final_state {A} (o : outcome A) : State :=
  match o with Ok _ s | Throw _ s => s end.

Declare Scope js_scope.
Delimit Scope js_scope with js.
Notation "x <- c ;; k" := (bind c (fun x => k))
  (at level 61, c at next level, right associativity) : js_scope.
Notation "c ;; k" := (bind c (fun _ => k))
  (at level 61, right associativity) : js_scope.
Local Open Scope js_scope.

(** [console.error(msg)]. *)
Definition console_error (msg : string) : M unit :=
  write (fun s => set_console (console s ++ [msg]) s).

(** Reading a property of [undefined] throws a [TypeError]. *)
Definition property_of {A} (v : option A) (name : string) : M A :=
  match v with
  | Some a => ret a
  | None =>
      throw (TypeError
               ("Cannot read properties of undefined (reading '" ++ name
                ++ "')"))
  end.

(** The double quote character, for the messages that quote a name. *)
Definition dquote : string := String "034"%char EmptyString.

(** ** The script *)

(** [chartOptions(chartTitle, yAxisLabel)]. *)
Definition chartOptions (chartTitle yAxisLabel : string) : ChartJs.options :=
  ChartJs.mkOptions
    true false
    "index" false
    (ChartJs.mkTitle true chartTitle "#f9fafb" (ChartJs.mkFont 18 (Some "600")))
    "#e5e7eb" 14
    (ChartJs.mkTooltip "rgba(20, 26, 39, 0.8)" "#f9fafb" "#e5e7eb"
                       "rgba(255, 255, 255, 0.1)" 1 10 true 4)
    (ChartJs.mkXScale "#9ca3af" "rgba(255, 255, 255, 0.1)")
    (ChartJs.mkYScale
       "linear" "left" (Some 0%Q) None None
       (ChartJs.mkTitle true yAxisLabel "#d1d5db"
                        (ChartJs.mkFont 14 (Some "bold")))
       "#9ca3af" "rgba(255, 255, 255, 0.1)").

(** [if (state.burnupChart) state.burnupChart.clear();] *)
Definition clear_burnupChart : M unit :=
  write (fun s => match burnupChart s with
                  | Some c => set_chartjs (ChartJs.clear c (chartjs s)) s
                  | None => s
                  end).

(** [if (state.burnupChart) state.burnupChart.destroy();] *)
Definition destroy_burnupChart : M unit :=
  write (fun s => match burnupChart s with
                  | Some c => set_chartjs (ChartJs.destroy c (chartjs s)) s
                  | None => s
                  end).

(** The error of [new Chart] on a canvas that is still in use. *)
Definition canvas_in_use : exn :=
  Error ("Canvas is already in use. Chart must be destroyed before the "
         ++ "canvas can be reused.").

(** [state.burnupChart = new Chart(elements.chartCanvas, cfg);]  When the
    constructor throws, the assignment does not take place. *)
Definition new_burnupChart (cfg : ChartJs.configuration) : M unit :=
  fun s => match ChartJs.create cfg (chartjs s) with
           | Some (c, r) => Ok tt (set_burnupChart (Some c) (set_chartjs r s))
           | None => Throw canvas_in_use s
           end.

(** [dailyPlannedHours || []]. *)
Definition plannedHoursData (chartData : SeriesBundle) : Js.series :=
  match dailyPlannedHours chartData with Some p => p | None => [] end.

(** [plannedHoursData[plannedHoursData.length - 1] || 0]. *)
Definition finalPlanned (planned : Js.series) : Q :=
  Js.or_zero (Js.last_elem planned).

(** [dates.map((_, index) => (dates.length <= 1)
       ? 0 : (finalPlanned / (dates.length - 1)) * index)]. *)
Definition idealBurnupData (dates : list string) (planned : Js.series)
  : list Q :=
  Js.map_index
    (fun _ index =>
       if (List.length dates <=? 1)%nat then 0%Q
       else (finalPlanned planned
             / inject_Z (Z.of_nat (List.length dates) - 1)
             * inject_Z (Z.of_nat index))%Q)
    dates.

(** [Math.ceil(Math.max(maxPlanned, maxEarned) * 1.05 / 50) * 50], with
    [maxPlanned] and [maxEarned] the maxima over [0] and the non-null
    entries. *)
Definition yAxisTop (planned earned : Js.series) : Z :=
  let maxPlanned := Js.max0 (filter Js.not_null planned) in
  let maxEarned := Js.max0 (filter Js.not_null earned) in
  (Js.ceil (Qmax maxPlanned maxEarned * (105 # 100) / 50) * 50)%Z.

(** [sprintData?.charts?.[userKey]]. *)
Definition bundle_of (sprintData : SprintRecord) (userKey : string)
  : option SeriesBundle :=
  match charts sprintData with
  | Some c => Js.get userKey c
  | None => None
  end.

(** The four entries of [datasets] in [drawChart]. *)
Definition burnup_datasets (earned : Js.series) (cost : option Js.series)
  (planned : Js.series) (ideal : list Q) (showIdeal : bool)
  : list ChartJs.dataset :=
  [ ChartJs.mkDataset "Earned Hours" (Some earned) "#38bdf8"
      (Some "rgba(56, 189, 248, 0.2)") true (Some (1 # 10)) None None None;
    ChartJs.mkDataset "Actual Cost" cost "#f43f5e" None false (Some (1 # 10))
      None None None;
    ChartJs.mkDataset "Total Planned Hours" (Some planned) "#34d399" None false
      None (Some [5; 5]%Z) (Some 0%Z) (Some true) ]
  ++ (if showIdeal
      then [ ChartJs.mkDataset "Ideal Burn-up" (Some (map Some ideal))
               "#facc15" None false None (Some [5; 5]%Z) (Some 0%Z) None ]
      else []).

(** [drawChart(sprintData, userKey, chartTitle, showIdeal)]. *)
Definition drawChart (sprintData : SprintRecord) (userKey chartTitle : string)
  (showIdeal : bool) : M unit :=
  match bundle_of sprintData userKey with
  | None =>
      clear_burnupChart ;;
      console_error ("Chart data not found for user: " ++ userKey)
  | Some chartData =>
      let planned := plannedHoursData chartData in
      ds <- property_of (dates sprintData) "map" ;;
      let ideal := idealBurnupData ds planned in
      earned <- property_of (earnedHours chartData) "filter" ;;
      let _yAxisTop := yAxisTop planned earned in
      let datasets :=
        burnup_datasets earned (actualCost chartData) planned ideal showIdeal in
      destroy_burnupChart ;;
      new_burnupChart
        (ChartJs.mkConfiguration "line" (Some ds) datasets
                                 (chartOptions chartTitle "Hours"))
  end.

(** [drawEvPvChart(evPvData, chartTitle)]. *)
Definition drawEvPvChart (evPvData : SprintRecord) (chartTitle : string)
  : M unit :=
  match bundle_of evPvData "overall" with
  | None =>
      destroy_burnupChart ;;
      console_error "EV/PV data not found."
  | Some overall =>
      destroy_burnupChart ;;
      new_burnupChart
        (ChartJs.mkConfiguration "line" (dates evPvData)
           [ ChartJs.mkDataset "Earned Value (EV)" (earnedValue overall)
               "#38bdf8" (Some "rgba(56, 189, 248, 0.2)") true (Some (1 # 10))
               None None None;
             ChartJs.mkDataset "Planned Value (PV)" (plannedValue overall)
               "#34d399" None false (Some (1 # 10)) None None None ]
           (chartOptions chartTitle "Cumulative Story Points"))
  end.

(** The option [populateUserFilter] and [populateSprintFilter] create for a
    name: value and text are both the name. *)
Definition option_for (name : string) : Dom.option_element :=
  Dom.mkOption name name.

(** [populateUserFilter(users = [])]; an [undefined] argument takes the
    default. *)
Definition populateUserFilter (users : option (list string)) : M unit :=
  let users := match users with Some u => u | None => [] end in
  currentUser <- read (fun s => Dom.get_value (userFilter s)) ;;
  write (set_userFilter Dom.cleared) ;;
  write (fun s =>
           set_userFilter
             (Dom.appendChild (Dom.mkOption "overall" "Overall Team")
                              (userFilter s)) s) ;;
  write (fun s =>
           set_userFilter
             (fold_left (fun sel user => Dom.appendChild (option_for user) sel)
                        users (userFilter s)) s) ;;
  write (fun s =>
           if Dom.some_value currentUser (userFilter s)
           then set_userFilter (Dom.set_value currentUser (userFilter s)) s
           else s).

(** [parseInt(name.match(/\d+/)?.[0] || -1)]: a matched run of digits is a
    non-empty string, hence truthy. *)
Definition sprintNumber (name : string) : Z :=
  match Js.match_digits name with
  | Some run => Js.parseInt run
  | None => (-1)%Z
  end.

(** The comparator handed to [sprintNames.sort]. *)
Definition compareSprints (a b : string) : Z :=
  (sprintNumber a - sprintNumber b)%Z.

(** [populateSprintFilter(sprintNames)]. *)
Definition populateSprintFilter (sprintNames : list string) : M unit :=
  write (set_sprintFilter Dom.cleared) ;;
  let sprintNames := Js.sort compareSprints sprintNames in
  write (fun s =>
           set_sprintFilter
             (fold_left (fun sel name => Dom.appendChild (option_for name) sel)
                        sprintNames (sprintFilter s)) s) ;;
  if (0 <? List.length sprintNames)%nat
  then write (fun s =>
                set_sprintFilter
                  (Dom.set_selectedIndex (List.length sprintNames - 1)
                                         (sprintFilter s)) s)
  else ret tt.

(** [state.fullData[key]]; on [null] data the read throws. *)
Definition fullData_get (key : string) : M (option SprintRecord) :=
  d <- read fullData ;;
  match d with
  | Some data => ret (Js.get key data)
  | None =>
      throw (TypeError
               ("Cannot read properties of null (reading '" ++ key ++ "')"))
  end.

(** [updateSprintDashboard()]. *)
Definition updateSprintDashboard : M unit :=
  selectedSprint <- read (fun s => Dom.get_value (sprintFilter s)) ;;
  found <- (if String.eqb selectedSprint "" then ret None
            else fullData_get selectedSprint) ;;
  match found with
  | None =>
      clear_burnupChart ;;
      console_error
        ("Data for sprint " ++ dquote ++ selectedSprint ++ dquote
         ++ " not found.")
  | Some sprintData =>
      populateUserFilter (users sprintData) ;;
      selectedUser <- read (fun s => Dom.get_value (userFilter s)) ;;
      sprintValue <- read (fun s => Dom.get_value (sprintFilter s)) ;;
      selected <- read (fun s => Dom.selected_option (userFilter s)) ;;
      userOption <- property_of selected "text" ;;
      let chartTitle :=
        "Burn-Up: " ++ sprintValue ++ " - " ++ Dom.text userOption in
      drawChart sprintData selectedUser chartTitle true
  end.

(** [handleViewChange()]. *)
Definition handleViewChange : M unit :=
  selectedView <- read (fun s => Dom.get_value (viewSelector s)) ;;
  write (set_sprintControls "none") ;;
  if String.eqb selectedView "ev_pv"
  then
    evPv <- fullData_get "EV/PV" ;;
    match evPv with
    | Some evPvData =>
        let chartTitle :=
          "Performance: Earned Value vs. Planned Value (All Time)" in
        drawEvPvChart evPvData chartTitle
    | None => ret tt
    end
  else
    write (set_sprintControls "flex") ;;
    updateSprintDashboard.

(** What [fetch] and [response.json()] deliver: the request fails, or it
    answers with a status ([ok] or not) and a body that is no JSON, a falsy
    JSON value ([null], [0], [false], the empty string), or a JSON object,
    which is what the data schema makes of the document. *)
Inductive body := NotJson | Falsy | Document (data : SprintDataset).
Inductive fetched := Rejected | Response (ok : bool) (content : body).

(** [addEventListener('change', h)] on one of the three selectors. *)
Definition addEventListener (t : target) (h : handler) : M unit :=
  write (fun s => set_listeners (listeners s ++ [(t, h)]) s).

(** The markup [initializeDashboard] writes over the chart container. *)
Definition error_markup (msg : string) : string :=
  "<p style=" ++ dquote ++ "color: #f43f5e; text-align: center;" ++ dquote
  ++ ">" ++ msg ++ "</p>".

(** The messages of the two errors [initializeDashboard] throws itself. *)
Definition data_unavailable : string :=
  "data.json not found. Please run the Python script first.".

Definition data_empty : string :=
  "data.json is empty or invalid. Please run the Python script to generate "
  ++ "data.".

(** [initializeDashboard()], given what the fetch of [data.json] brings. *)
Definition initializeDashboard (response : fetched) : M unit :=
  try_catch
    (match response with
     | Rejected => throw (TypeError "Failed to fetch")
     | Response false _ =>
         throw (Error data_unavailable)
     | Response true NotJson =>
         throw (SyntaxError "Unexpected token in JSON")
     | Response true Falsy =>
         write (set_fullData None) ;;
         throw (Error data_empty)
     | Response true (Document data) =>
         write (set_fullData (Some data)) ;;
         if (List.length (Js.keys data) =? 0)%nat
         then throw (Error data_empty)
         else
           let sprintNames :=
             filter (fun name => negb (String.eqb name "All Time")
                                 && negb (String.eqb name "EV/PV"))
                    (Js.keys data) in
           populateSprintFilter sprintNames ;;
           handleViewChange ;;
           addEventListener ViewSelector HandleViewChange ;;
           addEventListener SprintFilter UpdateSprintDashboard ;;
           addEventListener UserFilter UpdateSprintDashboard
     end)
    (fun error =>
       console_error ("Error initializing dashboard: " ++ message_of error) ;;
       write (set_chartContainer (Some (error_markup (message_of error))))).

(** ** Events *)

(** What the user can do: pick the option at some index of one of the three
    selectors, which fires that selector's [change] event. *)
Inductive event :=
| PickView (index : nat)
| PickSprint (index : nat)
| PickUser (index : nat).

Definition target_of (e : event) : target :=
  match e with
  | PickView _ => ViewSelector
  | PickSprint _ => SprintFilter
  | PickUser _ => UserFilter
  end.

Definition target_eqb (a b : target) : bool :=
  match a, b with
  | ViewSelector, ViewSelector => true
  | SprintFilter, SprintFilter => true
  | UserFilter, UserFilter => true
  | _, _ => false
  end.

(** Picking an option that the selector shows; other indices pick nothing. *)
Definition pick (index : nat) (sel : Dom.select) : Dom.select :=
  if (index <? List.length (Dom.options sel))%nat
  then Dom.mkSelect (Dom.options sel) (Some index)
  else sel.

Definition apply_pick (e : event) (s : State) : State :=
  match e with
  | PickView i => set_viewSelector (pick i (viewSelector s)) s
  | PickSprint i => set_sprintFilter (pick i (sprintFilter s)) s
  | PickUser i => set_userFilter (pick i (userFilter s)) s
  end.

Definition run_handler (h : handler) : M unit :=
  match h with
  | HandleViewChange => handleViewChange
  | UpdateSprintDashboard => updateSprintDashboard
  end.

(** The listeners registered on the event's target run one after the other;
    a listener that throws leaves its state to the next. *)
Definition dispatch (e : event) (s : State) : State :=
  let s := apply_pick e s in
  fold_left
    (fun st l => if target_eqb (fst l) (target_of e)
                 then final_state (run_handler (snd l) st)
                 else st)
    (listeners s) s.

(** The states of a page session: the fetch of [data.json] comes back, after
    whatever the user picked in the meantime with no listener registered yet,
    and [initializeDashboard] goes on; then any events. *)
Inductive reachable : State -> Prop :=
| reachable_load (response : fetched) (picks : list event) :
    reachable
      (final_state
         (initializeDashboard response
            (fold_left (fun s e => apply_pick e s) picks initial_state)))
| reachable_event (s : State) (e : event) :
    reachable s -> reachable (dispatch e s).

(** ** Notions of the specification *)






(** The options the user selector is to show for a [users] sequence: the
    sentinel entry, then one entry per user. *)
Definition user_options (users : option (list string))
  : list Dom.option_element :=
  Dom.mkOption "overall" "Overall Team"
  :: map option_for (match users with Some u => u | None => [] end).

(** The final element of [dailyPlannedHours] read as a number, [0] when the
    series is empty or absent. *)
Definition lastPlannedValue (dailyPlanned : option Js.series) : Q :=
  match dailyPlanned with
  | Some (v :: rest) => Js.to_number (List.last (v :: rest) None)
  | _ => 0%Q
  end.

(** The value the ideal burn-up line is to take at index [i] of [N] dates. *)
Definition ideal_value (N : nat) (last_planned : Q) (i : nat) : Q :=
  if (N <=? 1)%nat then 0%Q
  else (last_planned / (inject_Z (Z.of_nat N) - 1) * inject_Z (Z.of_nat i))%Q.

(** ** The chart invariant *)

(** The live chart instances on the canvas: none, or the one instance that
    [state.burnupChart] refers to. *)
Definition one_chart (s : State) : Prop :=
  ChartJs.instances (chartjs s) = []
  \/ exists c, burnupChart s = Some c
               /\ ChartJs.instances (chartjs s) = [ChartJs.id c].

(** A computation keeps the chart invariant, whether it returns or throws,
    and does not fail in [new Chart] on a canvas still in use. *)
Definition safe {A} (c : M A) : Prop :=
  forall s, one_chart s ->
    match c s with
    | Ok _ s' => one_chart s'
    | Throw e s' => one_chart s' /\ e <> canvas_in_use
    end.

(** The user selector [populateUserFilter] makes of a selector [sel]. *)
Definition populated (users : option (list string)) (sel : Dom.select)
  : Dom.select :=
  let shown := Dom.mkSelect (user_options users) (Some 0%nat) in
  if Dom.some_value (Dom.get_value sel) shown
  then Dom.set_value (Dom.get_value sel) shown
  else shown.

(** ** Sample documents *)

Definition sample_bundle : SeriesBundle :=
  mkBundle (Some [Some 0; Some 20; None; Some 40]%Q)
           (Some [Some 0; Some 25; Some 30; Some 50]%Q)
           (Some [Some 0; Some 30; Some 60; Some 100]%Q)
           None None.

(** A sprint of two users; the document has no bundle for "Bob". *)
Definition sample_sprint : SprintRecord :=
  mkRecord (Some ["05-19"; "05-20"; "05-21"; "05-22"])
           (Some ["Ann"; "Bob"])
           (Some [("overall", sample_bundle); ("Ann", sample_bundle)]).

Definition sample_ev_pv : SprintRecord :=
  mkRecord (Some ["05-19"; "05-20"])
           None
           (Some [("overall",
                   mkBundle None None None
                            (Some [Some 3; Some 8]%Q)
                            (Some [Some 5; Some 10]%Q))]).

Definition sample_data : SprintDataset :=
  [("Sprint 2", sample_sprint); ("Sprint 10", sample_sprint);
   ("Sprint 1", sample_sprint); ("EV/PV", sample_ev_pv)].


Definition sample_data_ev_pv_only : SprintDataset :=
  [("EV/PV", sample_ev_pv)].

(** The page after loading a document. *)
Definition loaded (data : SprintDataset) : State :=
  final_state (initializeDashboard (Response true (Document data))
                                   initial_state).

(** The page after loading a document and a sequence of events. *)
Definition session (data : SprintDataset) (events : list event) : State :=
  fold_left (fun s e => dispatch e s) events (loaded data).

(** ** Missing selections *)

(** The user key the selector holds once it is repopulated for [users]: the
    one selected before when it is among the new options, else the
    sentinel. *)
Definition kept_user (users : option (list string)) (previous : string)
  : string :=
  if in_dec string_dec previous (map Dom.value (user_options users))
  then previous else "overall".





(** What [chart.clear()] on [state.burnupChart], if set, makes of the
    library's state. *)
Definition after_clear (s : State) : ChartJs.registry :=
  match burnupChart s with
  | Some c => ChartJs.clear c (chartjs s)
  | None => chartjs s
  end.

(** The page once the user selector is repopulated for [users]. *)
Definition repopulated (users : option (list string)) (s : State) : State :=
  final_state (populateUserFilter users s).

(** The title [updateSprintDashboard] composes from the two selectors. *)
Definition burnup_title (s : State) : string :=
  "Burn-Up: " ++ Dom.get_value (sprintFilter s) ++ " - "
  ++ match Dom.selected_option (userFilter s) with
     | Some o => Dom.text o
     | None => ""
     end.




(** ** Rendering *)

(** The configuration [drawChart] hands to [new Chart]. *)
Definition burnup_configuration (dateLabels : list string)
  (chartData : SeriesBundle) (earned : Js.series) (chartTitle : string)
  (showIdeal : bool) : ChartJs.configuration :=
  ChartJs.mkConfiguration
    "line" (Some dateLabels)
    (burnup_datasets earned (actualCost chartData)
       (plannedHoursData chartData)
       (idealBurnupData dateLabels (plannedHoursData chartData)) showIdeal)
    (chartOptions chartTitle "Hours").

(** The configuration of the chart [state.burnupChart] refers to: its
    labels, datasets and options. *)
Definition chart_configuration (s : State) : option ChartJs.configuration :=
  option_map ChartJs.config (burnupChart s).

(** ** What a call leaves alone *)

(** A computation leaves the part [f] of the state as it is, whether it
    returns or throws. *)
Definition frames {A X} (f : State -> X) (c : M A) : Prop :=
  forall s, f (final_state (c s)) = f s.

(** What no handler writes: the dataset, the sprint selector, the view
    selector, the listeners and the chart container. *)
Definition fixed_part (s : State) :=
  (fullData s, sprintFilter s, viewSelector s, listeners s, chartContainer s).

(** The names [initializeDashboard] hands to [populateSprintFilter]: the keys
    of the document but the two reserved ones. *)
Definition is_sprint_name (name : string) : bool :=
  negb (String.eqb name "All Time") && negb (String.eqb name "EV/PV").


(** The three listeners [initializeDashboard] registers when it gets through. *)
Definition registered_listeners : list (target * handler) :=
  [(ViewSelector, HandleViewChange); (SprintFilter, UpdateSprintDashboard);
   (UserFilter, UpdateSprintDashboard)].

(** The console line [initializeDashboard] writes for a caught error. *)
Definition initialization_error (msg : string) : string :=
  "Error initializing dashboard: " ++ msg.


(** The console line of [updateSprintDashboard] for a sprint without record. *)
Definition sprint_not_found (sprint : string) : string :=
  "Data for sprint " ++ dquote ++ sprint ++ dquote ++ " not found.".


(** * Properties *)

(** ** Sorting the sprint names *)

Section SortByKey.
Context {A : Type} (key : A -> Z).







End SortByKey.

(** ** The sprint number of a name *)







Example sprintNumber_examples :
  map sprintNumber ["Sprint 2"; "Sprint 10"; "Sprint 1 Retro"; "Backlog";
                    "2024-Q3 Sprint 7"]
  = [2; 10; 1; -1; 2024]%Z.
Proof. reflexivity. Qed.

(** ** The sprint selector *)

Lemma append_options (names : list string) (sel : Dom.select) :
  fold_left (fun sel name => Dom.appendChild (option_for name) sel) names sel
  = Dom.mkSelect
      (Dom.options sel ++ map option_for names)
      (match names, Dom.selectedIndex sel with
       | [], i => i
       | _ :: _, Some i => Some i
       | _ :: _, None => Some 0%nat
       end).
Proof.
  revert sel. induction names as [|n names IH]; intro sel; simpl.
  - rewrite app_nil_r. now destruct sel.
  - rewrite IH. unfold Dom.appendChild; simpl. rewrite <- app_assoc. simpl.
    f_equal. destruct names, (Dom.selectedIndex sel); reflexivity.
Qed.


Lemma populateSprintFilter_run (sprintNames : list string) (s : State) :
  let sorted := Js.sort compareSprints sprintNames in
  populateSprintFilter sprintNames s
  = Ok tt (set_sprintFilter
             (Dom.mkSelect (map option_for sorted)
                           (match sorted with
                            | [] => None
                            | _ :: _ => Some (List.length sorted - 1)%nat
                            end)) s).
Proof.
  intro sorted. unfold populateSprintFilter, bind, write, ret. fold sorted.
  cbn [sprintFilter set_sprintFilter].
  rewrite append_options. cbn [Dom.options Dom.cleared app].
  destruct sorted as [|n sorted']; [reflexivity|].
  cbn [List.length Nat.ltb Nat.leb].
  unfold Dom.set_selectedIndex, set_sprintFilter.
  cbn [Dom.options sprintFilter burnupChart fullData viewSelector
       sprintControls userFilter chartContainer listeners console chartjs].
  rewrite length_map. cbn [List.length].
  destruct (Nat.ltb_spec (S (List.length sorted') - 1)
                         (S (List.length sorted'))); [reflexivity|lia].
Qed.


Example populateSprintFilter_ties :
  let s := final_state
             (populateSprintFilter
                ["Sprint 1 Retro"; "Backlog"; "Sprint 2"; "Sprint 1"]
                initial_state) in
  map Dom.value (Dom.options (sprintFilter s))
  = ["Backlog"; "Sprint 1 Retro"; "Sprint 1"; "Sprint 2"].
Proof. reflexivity. Qed.

Example populateSprintFilter_example :
  let s := final_state
             (populateSprintFilter ["Sprint 2"; "Sprint 10"; "Sprint 1"]
                                   initial_state) in
  map Dom.value (Dom.options (sprintFilter s))
  = ["Sprint 1"; "Sprint 2"; "Sprint 10"]
  /\ Dom.get_value (sprintFilter s) = "Sprint 10".
Proof. split; reflexivity. Qed.

(** ** The user selector *)

Lemma find_value_some (v : string) (opts : list Dom.option_element) :
  existsb (fun opt => String.eqb (Dom.value opt) v) opts = true ->
  exists i o, Dom.find_value v opts = Some i
              /\ nth_error opts i = Some o /\ Dom.value o = v.
Proof.
  induction opts as [|o opts IH]; simpl; [discriminate|].
  destruct (String.eqb_spec (Dom.value o) v) as [Heq|Hne]; simpl.
  - intros _. now exists 0%nat, o.
  - intro H. destruct (IH H) as (i & o' & Hf & Hn & Hv).
    exists (S i), o'. rewrite Hf. now repeat split.
Qed.

Lemma existsb_value_in (v : string) (opts : list Dom.option_element) :
  existsb (fun opt => String.eqb (Dom.value opt) v) opts = true
  <-> In v (map Dom.value opts).
Proof.
  rewrite existsb_exists, in_map_iff. split.
  - intros (o & Hin & Heq). apply String.eqb_eq in Heq. now exists o.
  - intros (o & Heq & Hin). exists o. now rewrite String.eqb_eq.
Qed.

Lemma populateUserFilter_run (users : option (list string)) (s : State) :
  populateUserFilter users s
  = Ok tt (set_userFilter (populated users (userFilter s)) s).
Proof.
  unfold populateUserFilter, populated, bind, write, read.
  cbn [userFilter set_userFilter]. rewrite append_options.
  set (previous := Dom.get_value (userFilter s)).
  set (shown := Dom.mkSelect (user_options users) (Some 0%nat)).
  assert (Heq : Dom.mkSelect
            (Dom.options
               (Dom.appendChild (Dom.mkOption "overall" "Overall Team")
                                Dom.cleared)
             ++ map option_for match users with Some u => u | None => [] end)
            match
              match users with Some u => u | None => [] end,
              Dom.selectedIndex
                (Dom.appendChild (Dom.mkOption "overall" "Overall Team")
                                 Dom.cleared)
            with
            | [], i => i
            | _ :: _, Some i => Some i
            | _ :: _, None => Some 0%nat
            end = shown).
  { unfold shown, user_options. simpl.
    now destruct (match users with Some u => u | None => [] end). }
  rewrite Heq. now destruct (Dom.some_value previous shown).
Qed.


(** The repopulated selector has a selected option: the first one of the
    value selected before, the sentinel when there is none. *)
Lemma populated_selected (users : option (list string)) (sel : Dom.select) :
  exists o,
    Dom.selected_option (populated users sel) = Some o
    /\ In o (user_options users)
    /\ Dom.value o = kept_user users (Dom.get_value sel).
Proof.
  unfold populated, kept_user.
  set (previous := Dom.get_value sel).
  assert (Hhead : nth_error (user_options users) 0
                  = Some (Dom.mkOption "overall" "Overall Team"))
    by reflexivity.
  generalize dependent (user_options users). intros opts Hhead.
  unfold Dom.some_value. cbn [Dom.options].
  destruct (existsb (fun opt => String.eqb (Dom.value opt) previous) opts)
    eqn:Hsome.
  - destruct (find_value_some _ _ Hsome) as (i & o & Hf & Hn & Hv).
    apply existsb_value_in in Hsome.
    destruct (in_dec string_dec previous (map Dom.value opts))
      as [_|Hout]; [|contradiction].
    exists o. unfold Dom.selected_option, Dom.set_value.
    cbn [Dom.options Dom.selectedIndex]. rewrite Hf.
    repeat split; trivial. eapply nth_error_In; eassumption.
  - destruct (in_dec string_dec previous (map Dom.value opts)) as [Hin|_].
    + apply existsb_value_in in Hin. congruence.
    + exists (Dom.mkOption "overall" "Overall Team").
      unfold Dom.selected_option. cbn [Dom.options Dom.selectedIndex].
      repeat split; trivial. eapply nth_error_In; eassumption.
Qed.

Lemma populated_value (users : option (list string)) (sel : Dom.select) :
  Dom.get_value (populated users sel) = kept_user users (Dom.get_value sel).
Proof.
  destruct (populated_selected users sel) as (o & Ho & _ & Hv).
  unfold Dom.get_value at 1. now rewrite Ho.
Qed.


Example populateUserFilter_undefined :
  let s := final_state (populateUserFilter None initial_state) in
  Dom.options (userFilter s) = [Dom.mkOption "overall" "Overall Team"]
  /\ Dom.get_value (userFilter s) = "overall".
Proof. split; reflexivity. Qed.

(** ** The ideal burn-up line *)

Lemma map_index_from_seq {A B} (g : nat -> B) (arr : list A) (k : nat) :
  Js.map_index_from k (fun _ index => g index) arr
  = map g (seq k (List.length arr)).
Proof.
  revert k. induction arr as [|x arr IH]; intro k; simpl; [reflexivity|].
  now rewrite IH.
Qed.

Lemma last_elem_last {A} (x : A) (arr : list A) (d : A) :
  Js.last_elem (x :: arr) = Some (List.last (x :: arr) d).
Proof.
  unfold Js.last_elem. revert x. induction arr as [|y arr IH]; intro x.
  - reflexivity.
  - specialize (IH y). cbn [List.length] in *.
    replace (S (S (List.length arr)) - 1)%nat
      with (S (S (List.length arr) - 1)) by lia.
    cbn [nth_error]. rewrite IH. reflexivity.
Qed.

Lemma finalPlanned_last (chartData : SeriesBundle) :
  (finalPlanned (plannedHoursData chartData)
   == lastPlannedValue (dailyPlannedHours chartData))%Q.
Proof.
  unfold finalPlanned, plannedHoursData, lastPlannedValue.
  destruct (dailyPlannedHours chartData) as [[|v rest]|]; try reflexivity.
  rewrite (last_elem_last v rest None). unfold Js.or_zero, Js.to_number.
  destruct (List.last (v :: rest) None) as [q|]; [|reflexivity].
  destruct (Qeq_bool q 0) eqn:Hq; [|reflexivity].
  apply Qeq_bool_iff in Hq. now rewrite Hq.
Qed.

Lemma Forall2_map_pointwise {A} (R : Q -> Q -> Prop) (g h : A -> Q)
  (l : list A) :
  (forall a, R (g a) (h a)) -> Forall2 R (map g l) (map h l).
Proof.
  intro H. induction l as [|a l IH]; simpl; constructor; auto.
Qed.

(** C1.  For every [dates] sequence of length [N] and every bundle, the ideal
    burn-up series computed for the chart has length [N], and its value at
    each index [i] is [0] when [N <= 1] and otherwise
    [(lastPlannedValue / (N - 1)) * i], with [lastPlannedValue] the final
    element of [dailyPlannedHours], [0] when that series is empty. *)
Theorem idealBurnupData_linear
  (dateLabels : list string) (chartData : SeriesBundle) :
  let N := List.length dateLabels in
  let ideal := idealBurnupData dateLabels (plannedHoursData chartData) in
  List.length ideal = N /\
  Forall2 Qeq ideal
          (map (ideal_value N (lastPlannedValue (dailyPlannedHours chartData)))
               (seq 0 N)).
Proof.
  intros N ideal. unfold ideal, idealBurnupData, Js.map_index.
  rewrite map_index_from_seq. fold N. split.
  - now rewrite length_map, length_seq.
  - apply Forall2_map_pointwise. intro i. unfold ideal_value.
    destruct (N <=? 1)%nat; [reflexivity|].
    assert (Hden : (inject_Z (Z.of_nat N - 1) == inject_Z (Z.of_nat N) - 1)%Q).
    { unfold Z.sub. rewrite inject_Z_plus, inject_Z_opp. reflexivity. }
    now rewrite finalPlanned_last, Hden.
Qed.

Example idealBurnupData_example :
  map Qred
      (idealBurnupData ["d1"; "d2"; "d3"; "d4"; "d5"]
                       [Some 10; Some 40; None; Some 80; Some 100]%Q)
  = [0; 25; 50; 75; 100]%Q.
Proof. reflexivity. Qed.

(** ** One live chart *)

Lemma safe_ret {A} (a : A) : safe (ret a).
Proof. intros s H. exact H. Qed.

Lemma safe_bind {A B} (c : M A) (k : A -> M B) :
  safe c -> (forall a, safe (k a)) -> safe (bind c k).
Proof.
  intros Hc Hk s Hs. unfold bind. specialize (Hc s Hs).
  destruct (c s) as [a s'|e s']; [now apply Hk|exact Hc].
Qed.

Lemma safe_read {A} (f : State -> A) : safe (read f).
Proof. intros s H. exact H. Qed.

Lemma safe_write (f : State -> State) :
  (forall s, one_chart s -> one_chart (f s)) -> safe (write f).
Proof. intros Hf s H. now apply Hf. Qed.

Lemma safe_throw {A} (e : exn) : e <> canvas_in_use -> safe (@throw A e).
Proof. intros He s H. now split. Qed.

Lemma safe_try_catch {A} (body : M A) (handle : exn -> M A) :
  safe body -> (forall e, safe (handle e)) -> safe (try_catch body handle).
Proof.
  intros Hb Hh s Hs. unfold try_catch. specialize (Hb s Hs).
  destruct (body s) as [a s'|e s']; [exact Hb|]. now apply Hh.
Qed.

Lemma safe_property_of {A} (v : option A) (name : string) :
  safe (property_of v name).
Proof.
  destruct v; [apply safe_ret|]. apply safe_throw. discriminate.
Qed.

(** Writes that leave [state.burnupChart] and the library alone. *)
Lemma safe_write_frame (f : State -> State) :
  (forall s, burnupChart (f s) = burnupChart s) ->
  (forall s, chartjs (f s) = chartjs s) ->
  safe (write f).
Proof.
  intros Hb Hc. apply safe_write. intros s H. unfold one_chart in *.
  now rewrite Hb, Hc.
Qed.

Lemma safe_console_error (msg : string) : safe (console_error msg).
Proof. now apply safe_write_frame. Qed.

Lemma safe_clear_burnupChart : safe clear_burnupChart.
Proof.
  apply safe_write. intros s H.
  destruct (burnupChart s) as [c|] eqn:Hc; [|exact H].
  unfold one_chart in *. cbn [chartjs burnupChart set_chartjs].
  unfold ChartJs.clear.
  destruct (ChartJs.is_live c (chartjs s)); exact H.
Qed.

Lemma destroy_only_chart (c : ChartJs.chart) (r : ChartJs.registry) :
  ChartJs.instances r = [] \/ ChartJs.instances r = [ChartJs.id c] ->
  ChartJs.instances (ChartJs.destroy c r) = []
  /\ ChartJs.next_id (ChartJs.destroy c r) = ChartJs.next_id r.
Proof.
  unfold ChartJs.destroy, ChartJs.is_live. intros [H|H]; rewrite H; simpl.
  - now split.
  - now rewrite Nat.eqb_refl.
Qed.

Lemma destroy_burnupChart_empties (s : State) :
  one_chart s ->
  exists s', destroy_burnupChart s = Ok tt s'
             /\ ChartJs.instances (chartjs s') = []
             /\ ChartJs.next_id (chartjs s') = ChartJs.next_id (chartjs s)
             /\ s' = set_chartjs (chartjs s') s.
Proof.
  intro H. unfold destroy_burnupChart, write. eexists. split; [reflexivity|].
  destruct H as [H|(c & Hc & H)].
  - destruct (burnupChart s) as [c|]; [|now destruct s].
    cbn [chartjs set_chartjs].
    destruct (destroy_only_chart c (chartjs s)) as [H1 H2]; [now left|].
    now repeat split.
  - rewrite Hc. cbn [chartjs set_chartjs].
    destruct (destroy_only_chart c (chartjs s)) as [H1 H2]; [now right|].
    now repeat split.
Qed.

Lemma safe_destroy_burnupChart : safe destroy_burnupChart.
Proof.
  intros s H. destruct (destroy_burnupChart_empties s H) as (s' & -> & He & _).
  now left.
Qed.

Lemma new_burnupChart_on_free_canvas (cfg : ChartJs.configuration) (s : State) :
  ChartJs.instances (chartjs s) = [] ->
  let n := ChartJs.next_id (chartjs s) in
  new_burnupChart cfg s
  = Ok tt (set_burnupChart (Some (ChartJs.mkChart n cfg))
             (set_chartjs (ChartJs.mkRegistry [n] (S n) (Some n)) s)).
Proof.
  intros H n. unfold new_burnupChart, ChartJs.create. now rewrite H.
Qed.

(** The pair of statements that ends both render paths: the chart that is
    there is destroyed, then the new one is built. *)
Lemma safe_redraw (cfg : ChartJs.configuration) :
  safe (destroy_burnupChart ;; new_burnupChart cfg).
Proof.
  intros s H. unfold bind.
  destruct (destroy_burnupChart_empties s H) as (s' & -> & He & _).
  rewrite (new_burnupChart_on_free_canvas cfg s' He).
  right. eexists. split; reflexivity.
Qed.

Lemma safe_drawChart (sprintData : SprintRecord) (userKey chartTitle : string)
  (showIdeal : bool) :
  safe (drawChart sprintData userKey chartTitle showIdeal).
Proof.
  unfold drawChart. destruct (bundle_of sprintData userKey) as [chartData|].
  - apply safe_bind; [apply safe_property_of|]. intro ds.
    apply safe_bind; [apply safe_property_of|]. intro earned.
    apply safe_redraw.
  - apply safe_bind; [apply safe_clear_burnupChart|]. intros _.
    apply safe_console_error.
Qed.

Lemma safe_drawEvPvChart (evPvData : SprintRecord) (chartTitle : string) :
  safe (drawEvPvChart evPvData chartTitle).
Proof.
  unfold drawEvPvChart. destruct (bundle_of evPvData "overall") as [overall|].
  - apply safe_redraw.
  - apply safe_bind; [apply safe_destroy_burnupChart|]. intros _.
    apply safe_console_error.
Qed.

Lemma safe_populateUserFilter (users : option (list string)) :
  safe (populateUserFilter users).
Proof.
  intros s H. rewrite populateUserFilter_run. exact H.
Qed.

Lemma safe_fullData_get (key : string) : safe (fullData_get key).
Proof.
  unfold fullData_get. apply safe_bind; [apply safe_read|].
  intros [data|]; [apply safe_ret|]. apply safe_throw. discriminate.
Qed.

Lemma safe_updateSprintDashboard : safe updateSprintDashboard.
Proof.
  unfold updateSprintDashboard.
  apply safe_bind; [apply safe_read|]. intro selectedSprint.
  apply safe_bind.
  { destruct (String.eqb selectedSprint "");
      [apply safe_ret|apply safe_fullData_get]. }
  intros [sprintData|].
  - apply safe_bind; [apply safe_populateUserFilter|]. intros _.
    apply safe_bind; [apply safe_read|]. intro selectedUser.
    apply safe_bind; [apply safe_read|]. intro sprintValue.
    apply safe_bind; [apply safe_read|]. intro selected.
    apply safe_bind; [apply safe_property_of|]. intro userOption.
    apply safe_drawChart.
  - apply safe_bind; [apply safe_clear_burnupChart|]. intros _.
    apply safe_console_error.
Qed.

Lemma safe_handleViewChange : safe handleViewChange.
Proof.
  unfold handleViewChange.
  apply safe_bind; [apply safe_read|]. intro selectedView.
  apply safe_bind; [now apply safe_write_frame|]. intros _.
  destruct (String.eqb selectedView "ev_pv").
  - apply safe_bind; [apply safe_fullData_get|].
    intros [evPvData|]; [apply safe_drawEvPvChart|apply safe_ret].
  - apply safe_bind; [now apply safe_write_frame|]. intros _.
    apply safe_updateSprintDashboard.
Qed.

Lemma safe_populateSprintFilter (sprintNames : list string) :
  safe (populateSprintFilter sprintNames).
Proof.
  intros s H. rewrite populateSprintFilter_run. exact H.
Qed.

Lemma safe_initializeDashboard (response : fetched) :
  safe (initializeDashboard response).
Proof.
  unfold initializeDashboard. apply safe_try_catch.
  - destruct response as [|[|] [| |data]];
      try (apply safe_throw; discriminate).
    + apply safe_bind; [now apply safe_write_frame|]. intros _.
      apply safe_throw. discriminate.
    + apply safe_bind; [now apply safe_write_frame|]. intros _.
      destruct (List.length (Js.keys data) =? 0)%nat.
      * apply safe_throw. discriminate.
      * apply safe_bind; [apply safe_populateSprintFilter|]. intros _.
        apply safe_bind; [apply safe_handleViewChange|]. intros _.
        repeat (apply safe_bind; [now apply safe_write_frame|]; intros _).
        now apply safe_write_frame.
  - intro e. apply safe_bind; [apply safe_console_error|]. intros _.
    now apply safe_write_frame.
Qed.

Lemma safe_final_state {A} (c : M A) (s : State) :
  safe c -> one_chart s -> one_chart (final_state (c s)).
Proof.
  intros Hc Hs. specialize (Hc s Hs).
  destruct (c s); [exact Hc|apply Hc].
Qed.

Lemma safe_run_handler (h : handler) : safe (run_handler h).
Proof.
  destruct h; [apply safe_handleViewChange|apply safe_updateSprintDashboard].
Qed.

Lemma one_chart_apply_pick (e : event) (s : State) :
  one_chart s -> one_chart (apply_pick e s).
Proof. now destruct e. Qed.


Lemma one_chart_dispatch (e : event) (s : State) :
  one_chart s -> one_chart (dispatch e s).
Proof.
  intro H. unfold dispatch.
  generalize (listeners (apply_pick e s)).
  apply (one_chart_apply_pick e) in H. revert H.
  generalize (apply_pick e s). intros st Hst ls. revert st Hst.
  induction ls as [|l ls IH]; intros st Hst; simpl; [exact Hst|].
  apply IH. destruct (target_eqb (fst l) (target_of e)); [|exact Hst].
  apply safe_final_state; [apply safe_run_handler|exact Hst].
Qed.

Lemma reachable_session (data : SprintDataset) (events : list event) :
  reachable (session data events).
Proof.
  unfold session.
  assert (H : reachable (loaded data))
    by apply (reachable_load (Response true (Document data)) []).
  revert H. generalize (loaded data).
  induction events as [|e events IH]; intros s H; simpl; [exact H|].
  apply IH. now constructor.
Qed.

Lemma one_chart_before_load (picks : list event) :
  one_chart (fold_left (fun s e => apply_pick e s) picks initial_state).
Proof.
  assert (H : one_chart initial_state) by now left.
  revert H. generalize initial_state.
  induction picks as [|e picks IH]; intros s H; simpl; [exact H|].
  apply IH. now apply one_chart_apply_pick.
Qed.

(** C7.  In every state of a page session at most one chart instance is
    live, and it is the one [state.burnupChart] refers to; and no handler run
    in such a state fails in [new Chart] because the canvas is still in use:
    on both render paths the chart that is there has been destroyed when the
    new one is constructed. *)
Theorem one_live_chart (s : State) :
  reachable s ->
  one_chart s
  /\ (List.length (ChartJs.instances (chartjs s)) <= 1)%nat
  /\ forall (h : handler) (s' : State),
      run_handler h s <> Throw canvas_in_use s'.
Proof.
  intro Hr.
  assert (H : one_chart s).
  { induction Hr as [response picks|s e Hr IH].
    - apply safe_final_state; [apply safe_initializeDashboard|].
      apply one_chart_before_load.
    - now apply one_chart_dispatch. }
  split; [exact H|]. split.
  - destruct H as [H|(c & _ & H)]; rewrite H; simpl; lia.
  - intros h s' Hthrow. pose proof (safe_run_handler h s H) as Hsafe.
    rewrite Hthrow in Hsafe. now destruct Hsafe as [_ Hne].
Qed.

Lemma one_live_chart_witness :
  let s := dispatch (PickView 0)
             (dispatch (PickView 1) (loaded sample_data)) in
  reachable s
  /\ ChartJs.instances (chartjs s) = [2%nat]
  /\ one_chart s
  /\ (List.length (ChartJs.instances (chartjs s)) <= 1)%nat
  /\ forall (h : handler) (s' : State),
      run_handler h s <> Throw canvas_in_use s'.
Proof.
  intro s.
  assert (H : reachable s).
  { apply reachable_event, reachable_event.
    exact (reachable_load (Response true (Document sample_data)) []). }
  split; [exact H|]. split; [vm_compute; reflexivity|].
  exact (one_live_chart s H).
Defined.

(** ** Missing selections *)



(** The two statements of a missing-data branch: clear, then log. *)
Lemma clear_and_log (msg : string) (s : State) :
  (clear_burnupChart ;; console_error msg) s
  = Ok tt (set_console (console s ++ [msg]) (set_chartjs (after_clear s) s)).
Proof.
  unfold bind, clear_burnupChart, console_error, write, after_clear.
  destruct (burnupChart s); [reflexivity|]. now destruct s.
Qed.

Lemma updateSprintDashboard_no_record (s : State) (data : SprintDataset) :
  fullData s = Some data ->
  Js.get (Dom.get_value (sprintFilter s)) data = None ->
  updateSprintDashboard s
  = Ok tt (set_console
             (console s
              ++ ["Data for sprint " ++ dquote
                  ++ Dom.get_value (sprintFilter s) ++ dquote
                  ++ " not found."])
             (set_chartjs (after_clear s) s)).
Proof.
  intros Hdata Hget. rewrite <- clear_and_log.
  unfold updateSprintDashboard, fullData_get, bind at 1 2, read at 1.
  destruct (String.eqb (Dom.get_value (sprintFilter s)) ""); [reflexivity|].
  unfold bind, read, ret. now rewrite Hdata, Hget.
Qed.

Lemma kept_user_selected (users : option (list string)) (s : State) :
  Dom.get_value
    (userFilter (final_state (populateUserFilter users s)))
  = kept_user users (Dom.get_value (userFilter s)).
Proof.
  rewrite populateUserFilter_run. cbn [final_state userFilter set_userFilter].
  apply populated_value.
Qed.

Lemma repopulated_frame (users : option (list string)) (s : State) :
  repopulated users s = set_userFilter (userFilter (repopulated users s)) s.
Proof. unfold repopulated. now rewrite populateUserFilter_run. Qed.

(** With a record for the selected sprint, [updateSprintDashboard] is
    [drawChart] on the repopulated page. *)
Lemma updateSprintDashboard_record
  (s : State) (data : SprintDataset) (sprintData : SprintRecord) :
  fullData s = Some data ->
  Dom.get_value (sprintFilter s) <> "" ->
  Js.get (Dom.get_value (sprintFilter s)) data = Some sprintData ->
  let s1 := repopulated (users sprintData) s in
  updateSprintDashboard s
  = drawChart sprintData (Dom.get_value (userFilter s1)) (burnup_title s1)
              true s1.
Proof.
  intros Hdata Hne Hget s1.
  pose proof (populateUserFilter_run (users sprintData) s) as Hrun.
  destruct (populated_selected (users sprintData) (userFilter s))
    as (o & Ho & _).
  set (s' := set_userFilter (populated (users sprintData) (userFilter s)) s)
    in *.
  assert (Hs1 : s1 = s') by (unfold s1, repopulated; now rewrite Hrun).
  change (Dom.selected_option (userFilter s') = Some o) in Ho.
  unfold updateSprintDashboard, fullData_get, bind at 1 2, read at 1.
  apply String.eqb_neq in Hne. rewrite Hne.
  unfold bind at 1 2, read at 1. rewrite Hdata. unfold ret at 1.
  rewrite Hget. unfold bind at 1. rewrite Hrun.
  unfold bind, read. rewrite Ho. unfold property_of, ret.
  rewrite Hs1. unfold burnup_title. rewrite Ho.
  assert (Hsf : sprintFilter s' = sprintFilter s).
  { rewrite <- Hs1. unfold s1. rewrite repopulated_frame. reflexivity. }
  now rewrite Hsf.
Qed.

Lemma drawChart_no_bundle
  (sprintData : SprintRecord) (userKey chartTitle : string) (showIdeal : bool)
  (s : State) :
  bundle_of sprintData userKey = None ->
  drawChart sprintData userKey chartTitle showIdeal s
  = Ok tt (set_console
             (console s ++ ["Chart data not found for user: " ++ userKey])
             (set_chartjs (after_clear s) s)).
Proof.
  intro H. unfold drawChart. rewrite H. apply clear_and_log.
Qed.





(** C10.  Whenever the selected sprint key has no record in the dataset,
    [updateSprintDashboard] returns with the user selector, its options and
    its selection, exactly as they were, and with the dataset, and the sprint
    selector, unmodified. *)
Theorem missing_sprint_keeps_user_filter (s : State) (data : SprintDataset) :
  fullData s = Some data ->
  Js.get (Dom.get_value (sprintFilter s)) data = None ->
  exists s',
    updateSprintDashboard s = Ok tt s'
    /\ userFilter s' = userFilter s
    /\ fullData s' = fullData s
    /\ sprintFilter s' = sprintFilter s.
Proof.
  intros Hdata Hnone.
  rewrite (updateSprintDashboard_no_record s data Hdata Hnone).
  eexists. split; [reflexivity|]. now repeat split.
Qed.

Lemma missing_sprint_keeps_user_filter_witness :
  let s := session sample_data_ev_pv_only [PickView 1; PickView 0] in
  fullData s = Some sample_data_ev_pv_only
  /\ Js.get (Dom.get_value (sprintFilter s)) sample_data_ev_pv_only = None
  /\ exists s',
      updateSprintDashboard s = Ok tt s'
      /\ userFilter s' = userFilter s
      /\ fullData s' = fullData s
      /\ sprintFilter s' = sprintFilter s.
Proof.
  intro s.
  assert (Hdata : fullData s = Some sample_data_ev_pv_only)
    by (vm_compute; reflexivity).
  assert (Hnone : Js.get (Dom.get_value (sprintFilter s))
                         sample_data_ev_pv_only = None)
    by (vm_compute; reflexivity).
  split; [exact Hdata|]. split; [exact Hnone|].
  exact (missing_sprint_keeps_user_filter s _ Hdata Hnone).
Defined.

(** ** The EV/PV view without its record *)




(** ** Loading an empty document *)


(** ** Rendering twice *)

Lemma userFilter_repopulated (users : option (list string)) (s : State) :
  userFilter (repopulated users s) = populated users (userFilter s).
Proof. unfold repopulated. now rewrite populateUserFilter_run. Qed.

Lemma set_userFilter_same (s : State) : set_userFilter (userFilter s) s = s.
Proof. now destruct s. Qed.

(** Repopulating a user selector that was just populated for the same users
    changes nothing. *)
Lemma populated_idempotent (users : option (list string)) (sel : Dom.select) :
  populated users (populated users sel) = populated users sel.
Proof.
  unfold populated at 2 3.
  destruct (Dom.some_value (Dom.get_value sel)
              (Dom.mkSelect (user_options users) (Some 0%nat))) eqn:Hsome;
    [|reflexivity].
  unfold populated. revert Hsome.
  generalize (user_options users). intros opts Hsome.
  destruct (find_value_some _ _ Hsome) as (i & o & Hf & Hn & Hv).
  cbn [Dom.options] in Hf, Hn.
  assert (Hval : Dom.get_value
                   (Dom.set_value (Dom.get_value sel)
                                  (Dom.mkSelect opts (Some 0%nat)))
                 = Dom.get_value sel).
  { unfold Dom.get_value at 1, Dom.selected_option, Dom.set_value.
    cbn [Dom.selectedIndex Dom.options]. now rewrite Hf, Hn. }
  now rewrite Hval, Hsome.
Qed.

Lemma repopulated_twice (users : option (list string)) (s s1 : State) :
  userFilter s1 = userFilter (repopulated users s) ->
  repopulated users s1 = s1.
Proof.
  intro H. rewrite repopulated_frame, userFilter_repopulated, H.
  rewrite userFilter_repopulated, populated_idempotent.
  rewrite <- userFilter_repopulated, <- H. apply set_userFilter_same.
Qed.

Lemma updateSprintDashboard_nothing_selected (s : State) :
  Dom.get_value (sprintFilter s) = "" ->
  updateSprintDashboard s
  = Ok tt (set_console
             (console s
              ++ ["Data for sprint " ++ dquote
                  ++ Dom.get_value (sprintFilter s) ++ dquote
                  ++ " not found."])
             (set_chartjs (after_clear s) s)).
Proof.
  intros Hsel. rewrite <- clear_and_log.
  unfold updateSprintDashboard, bind at 1 2, read at 1.
  now rewrite Hsel.
Qed.

Lemma updateSprintDashboard_no_data (s : State) :
  fullData s = None -> Dom.get_value (sprintFilter s) <> "" ->
  exists e, updateSprintDashboard s = Throw e s.
Proof.
  intros Hdata Hne. apply String.eqb_neq in Hne.
  unfold updateSprintDashboard, fullData_get, bind at 1 2, read at 1.
  rewrite Hne. unfold bind, read. rewrite Hdata. now eexists.
Qed.

(** The three ways [drawChart] goes. *)
Lemma drawChart_run (sprintData : SprintRecord) (userKey chartTitle : string)
  (showIdeal : bool) (s : State) :
  match bundle_of sprintData userKey with
  | None =>
      drawChart sprintData userKey chartTitle showIdeal s
      = Ok tt (set_console
                 (console s ++ ["Chart data not found for user: " ++ userKey])
                 (set_chartjs (after_clear s) s))
  | Some chartData =>
      match dates sprintData, earnedHours chartData with
      | Some dateLabels, Some earned =>
          drawChart sprintData userKey chartTitle showIdeal s
          = (destroy_burnupChart ;;
             new_burnupChart
               (burnup_configuration dateLabels chartData earned chartTitle
                                     showIdeal)) s
      | _, _ =>
          exists e, drawChart sprintData userKey chartTitle showIdeal s
                    = Throw e s
      end
  end.
Proof.
  destruct (bundle_of sprintData userKey) as [chartData|] eqn:Hb.
  - unfold drawChart. rewrite Hb.
    destruct (dates sprintData) as [dateLabels|];
      [|now eexists].
    destruct (earnedHours chartData) as [earned|]; [reflexivity|now eexists].
  - now apply drawChart_no_bundle.
Qed.

Lemma redraw_returns (cfg : ChartJs.configuration) (s s1 : State) :
  (destroy_burnupChart ;; new_burnupChart cfg) s = Ok tt s1 ->
  chart_configuration s1 = Some cfg
  /\ one_chart s1
  /\ sprintFilter s1 = sprintFilter s
  /\ userFilter s1 = userFilter s
  /\ fullData s1 = fullData s.
Proof.
  unfold bind, destroy_burnupChart, write, new_burnupChart, ChartJs.create.
  set (s0 := match burnupChart s with
             | Some c => set_chartjs (ChartJs.destroy c (chartjs s)) s
             | None => s
             end).
  assert (Hframe : sprintFilter s0 = sprintFilter s
                   /\ userFilter s0 = userFilter s
                   /\ fullData s0 = fullData s)
    by (unfold s0; now destruct (burnupChart s)).
  destruct Hframe as (H1 & H2 & H3).
  destruct (ChartJs.instances (chartjs s0)); [|discriminate].
  intro H. injection H as <-.
  cbn [sprintFilter userFilter fullData set_burnupChart set_chartjs].
  repeat split; trivial. right. eexists. split; reflexivity.
Qed.

Lemma redraw_succeeds (cfg : ChartJs.configuration) (s : State) :
  one_chart s ->
  exists s1, (destroy_burnupChart ;; new_burnupChart cfg) s = Ok tt s1.
Proof.
  intro H. unfold bind.
  destruct (destroy_burnupChart_empties s H) as (s' & -> & He & _).
  rewrite (new_burnupChart_on_free_canvas cfg s' He). now eexists.
Qed.

(** The chart [drawChart] draws with the ideal overlay carries the ideal
    burn-up series as its fourth dataset. *)
Lemma burnup_configuration_ideal (dateLabels : list string)
  (chartData : SeriesBundle) (earned : Js.series) (chartTitle : string) :
  option_map ChartJs.data
    (nth_error
       (ChartJs.datasets
          (burnup_configuration dateLabels chartData earned chartTitle true))
       3)
  = Some (Some (map Some (idealBurnupData dateLabels
                                          (plannedHoursData chartData)))).
Proof. reflexivity. Qed.

(** C9.  When [updateSprintDashboard] has returned, running it once more, on
    the same dataset and with the selections it left, returns as well and
    leaves a chart of the same configuration, labels, datasets and options,
    and the same selections. *)
Theorem render_idempotent (s s1 : State) :
  updateSprintDashboard s = Ok tt s1 ->
  exists s2,
    updateSprintDashboard s1 = Ok tt s2
    /\ chart_configuration s2 = chart_configuration s1
    /\ sprintFilter s2 = sprintFilter s1
    /\ userFilter s2 = userFilter s1
    /\ fullData s2 = fullData s1.
Proof.
  intro Hrun.
  destruct (string_dec (Dom.get_value (sprintFilter s)) "") as [Hsel|Hsel].
  { rewrite (updateSprintDashboard_nothing_selected s Hsel) in Hrun.
    injection Hrun as <-.
    eexists. split; [now apply updateSprintDashboard_nothing_selected|].
    now repeat split. }
  destruct (fullData s) as [data|] eqn:Hdata.
  2:{ destruct (updateSprintDashboard_no_data s Hdata Hsel) as (e & He).
      congruence. }
  destruct (Js.get (Dom.get_value (sprintFilter s)) data)
    as [sprintData|] eqn:Hget.
  2:{ rewrite (updateSprintDashboard_no_record s data Hdata Hget) in Hrun.
      injection Hrun as <-.
      eexists. split; [now apply (updateSprintDashboard_no_record _ data)|].
      now repeat split. }
  rewrite (updateSprintDashboard_record s data sprintData Hdata Hsel Hget)
    in Hrun. cbv zeta in Hrun.
  set (sp := repopulated (users sprintData) s) in *.
  assert (Hsp : sprintFilter sp = sprintFilter s /\ fullData sp = fullData s)
    by (unfold sp; rewrite repopulated_frame; now split).
  destruct Hsp as (Hsp1 & Hsp2).
  assert (Hnext : forall s1,
             sprintFilter s1 = sprintFilter sp -> fullData s1 = fullData sp ->
             userFilter s1 = userFilter sp ->
             updateSprintDashboard s1
             = drawChart sprintData (Dom.get_value (userFilter sp))
                         (burnup_title sp) true s1).
  { intros s' Hf Hd Hu.
    rewrite (updateSprintDashboard_record s' data sprintData).
    - cbv zeta. rewrite (repopulated_twice (users sprintData) s s' Hu).
      unfold burnup_title. now rewrite Hf, Hu.
    - congruence.
    - congruence.
    - rewrite Hf, Hsp1. exact Hget. }
  pose proof (drawChart_run sprintData (Dom.get_value (userFilter sp))
                            (burnup_title sp) true) as Hcases.
  destruct (bundle_of sprintData (Dom.get_value (userFilter sp)))
    as [chartData|].
  - destruct (dates sprintData) as [dateLabels|];
      [|destruct (Hcases sp) as (e & He); congruence].
    destruct (earnedHours chartData) as [earned|];
      [|destruct (Hcases sp) as (e & He); congruence].
    rewrite (Hcases sp) in Hrun.
    destruct (redraw_returns _ _ _ Hrun) as (Hcfg & Hone & Hf & Hu & Hd).
    destruct (redraw_succeeds
                (burnup_configuration dateLabels chartData earned
                                      (burnup_title sp) true) s1 Hone)
      as (s2 & Hrun2).
    exists s2. rewrite (Hnext s1 Hf Hd Hu), (Hcases s1).
    split; [exact Hrun2|].
    destruct (redraw_returns _ _ _ Hrun2) as (Hcfg2 & _ & Hf2 & Hu2 & Hd2).
    repeat split; congruence.
  - rewrite (Hcases sp) in Hrun. injection Hrun as <-.
    eexists. rewrite Hnext by reflexivity. rewrite Hcases.
    split; [reflexivity|]. now repeat split.
Qed.

Lemma render_idempotent_witness :
  let s := apply_pick (PickUser 1) (loaded sample_data) in
  let s1 := final_state (updateSprintDashboard s) in
  updateSprintDashboard s = Ok tt s1
  /\ exists s2,
      updateSprintDashboard s1 = Ok tt s2
      /\ chart_configuration s2 = chart_configuration s1
      /\ sprintFilter s2 = sprintFilter s1
      /\ userFilter s2 = userFilter s1
      /\ fullData s2 = fullData s1.
Proof.
  intros s s1.
  assert (Hrun : updateSprintDashboard s = Ok tt s1)
    by (vm_compute; reflexivity).
  split; [exact Hrun|]. exact (render_idempotent s s1 Hrun).
Defined.

Example render_draws_for_ann :
  let s1 := final_state
              (updateSprintDashboard
                 (apply_pick (PickUser 1) (loaded sample_data))) in
  option_map (fun cfg => ChartJs.title_text
                           (ChartJs.plugins_title (ChartJs.chart_options cfg)))
             (chart_configuration s1)
  = Some "Burn-Up: Sprint 10 - Ann".
Proof. vm_compute. reflexivity. Qed.

(** ** The suggested top of the y-axis *)

Lemma max0_from (arr : Js.series) (acc : Q) :
  let m := fold_left (fun m v => Qmax m (Js.to_number v)) arr acc in
  (acc <= m)%Q
  /\ Forall (fun v => (Js.to_number v <= m)%Q) arr
  /\ ((m == acc)%Q \/ exists v, In v arr /\ (m == Js.to_number v)%Q).
Proof.
  revert acc. induction arr as [|v arr IH]; intro acc; simpl.
  - split; [apply Qle_refl|]. split; [constructor|]. left. reflexivity.
  - destruct (IH (Qmax acc (Js.to_number v))) as (Hle & Hall & Hor).
    split; [|split].
    + eapply Qle_trans; [apply Q.le_max_l|exact Hle].
    + constructor; [|exact Hall].
      eapply Qle_trans; [apply Q.le_max_r|exact Hle].
    + destruct Hor as [Heq|(w & Hin & Heq)].
      * destruct (Q.max_spec acc (Js.to_number v)) as [[_ Hm]|[_ Hm]].
        -- right. exists v. split; [now left|]. now rewrite Heq.
        -- left. now rewrite Heq.
      * right. exists w. split; [now right|exact Heq].
Qed.

(** X19. [Js.max0] after the [filter]: the largest of [0] and the numbers of the
    series, [null] entries left out. *)
Lemma max0_filter_spec (arr : Js.series) :
  let m := Js.max0 (filter Js.not_null arr) in
  (0 <= m)%Q
  /\ (forall q, In (Some q) arr -> (q <= m)%Q)
  /\ ((m == 0)%Q \/ exists q, In (Some q) arr /\ (m == q)%Q).
Proof.
  intro m. destruct (max0_from (filter Js.not_null arr) 0) as (H0 & Hall & Hor).
  fold (Js.max0 (filter Js.not_null arr)) in H0, Hall, Hor.
  fold m in H0, Hall, Hor.
  split; [exact H0|]. split.
  - intros q Hin. rewrite Forall_forall in Hall.
    apply (Hall (Some q)). apply filter_In. now split.
  - destruct Hor as [Heq|(v & Hin & Heq)]; [now left|].
    apply filter_In in Hin as [Hin Hnn].
    destruct v as [q|]; [|discriminate]. right. now exists q.
Qed.

(** [yAxisTop] is the least multiple of [50] that is at least [1.05] times
    the larger of the two maxima. *)
Lemma yAxisTop_least_multiple (planned earned : Js.series) :
  let largest := Qmax (Js.max0 (filter Js.not_null planned))
                      (Js.max0 (filter Js.not_null earned)) in
  (exists k, yAxisTop planned earned = 50 * k)%Z
  /\ (largest * (105 # 100) <= inject_Z (yAxisTop planned earned))%Q
  /\ forall k : Z,
      (largest * (105 # 100) <= inject_Z (50 * k))%Q ->
      (yAxisTop planned earned <= 50 * k)%Z.
Proof.
  intro largest. unfold yAxisTop, Js.ceil. fold largest.
  set (x := (largest * (105 # 100) / 50)%Q).
  assert (Hx : (largest * (105 # 100) == x * 50)%Q)
    by (unfold x; field).
  split; [exists (Qceiling x); lia|]. split.
  - rewrite Hx, inject_Z_mult.
    apply Qmult_le_compat_r; [apply Qle_ceiling|discriminate].
  - intros k Hk. rewrite Hx in Hk.
    assert (Hxk : (x <= inject_Z k)%Q).
    { apply (Qmult_le_r _ _ 50); [reflexivity|].
      rewrite inject_Z_mult in Hk.
      now setoid_replace (inject_Z k * 50)%Q with (inject_Z 50 * inject_Z k)%Q
        by ring. }
    apply Qceiling_resp_le in Hxk. rewrite Qceiling_Z in Hxk. lia.
Qed.

(** No options object of [chartOptions] bounds the y-axis from above. *)
Lemma chartOptions_no_upper_bound (chartTitle yAxisLabel : string) :
  let y := ChartJs.scales_y (chartOptions chartTitle yAxisLabel) in
  ChartJs.min y = Some 0%Q /\ ChartJs.max y = None
  /\ ChartJs.suggestedMax y = None.
Proof. now repeat split. Qed.

(** C4, evaluated.  For the sample sprint the suggested top of the y-axis is
    [150], the least multiple of [50] that is at least [1.05 * 100]; the
    chart [drawChart] builds has a y-axis that starts at [0] and carries no
    upper bound: the computed value is not part of the options. *)
Theorem yAxisTop_is_not_supplied :
  yAxisTop [Some 0; Some 30; Some 60; Some 100]%Q
           [Some 0; Some 20; None; Some 40]%Q = 150%Z
  /\ exists s' c,
      drawChart sample_sprint "overall" "Burn-Up: Sprint 1 - Overall Team"
                true initial_state = Ok tt s'
      /\ burnupChart s' = Some c
      /\ let y := ChartJs.scales_y (ChartJs.chart_options (ChartJs.config c)) in
         ChartJs.min y = Some 0%Q
         /\ ChartJs.max y = None
         /\ ChartJs.suggestedMax y = None.
Proof.
  split; [vm_compute; reflexivity|].
  eexists. eexists. split; [vm_compute; reflexivity|].
  split; [reflexivity|]. now repeat split.
Qed.

(** * Further properties of the script *)

(** ** What the handlers leave alone *)

Lemma frames_ret {A X} (f : State -> X) (a : A) : frames f (ret a).
Proof. intro s. reflexivity. Qed.

Lemma frames_throw {A X} (f : State -> X) (e : exn) : frames f (@throw A e).
Proof. intro s. reflexivity. Qed.

Lemma frames_read {A X} (f : State -> X) (g : State -> A) : frames f (read g).
Proof. intro s. reflexivity. Qed.

Lemma frames_write {X} (f : State -> X) (g : State -> State) :
  (forall s, f (g s) = f s) -> frames f (write g).
Proof. intros H s. apply H. Qed.

Lemma frames_bind {A B X} (f : State -> X) (c : M A) (k : A -> M B) :
  frames f c -> (forall a, frames f (k a)) -> frames f (bind c k).
Proof.
  intros Hc Hk s. unfold bind. specialize (Hc s).
  destruct (c s) as [a s'|e s']; cbn [final_state] in *.
  - now rewrite Hk.
  - exact Hc.
Qed.

Lemma frames_try_catch {A X} (f : State -> X) (body : M A)
  (handle : exn -> M A) :
  frames f body -> (forall e, frames f (handle e)) ->
  frames f (try_catch body handle).
Proof.
  intros Hb Hh s. unfold try_catch. specialize (Hb s).
  destruct (body s) as [a s'|e s']; cbn [final_state] in *.
  - exact Hb.
  - now rewrite Hh.
Qed.

Lemma frames_property_of {A X} (f : State -> X) (v : option A)
  (name : string) : frames f (property_of v name).
Proof. destruct v; [apply frames_ret|apply frames_throw]. Qed.

Lemma fixed_clear_burnupChart : frames fixed_part clear_burnupChart.
Proof. apply frames_write. intro s. now destruct (burnupChart s). Qed.

Lemma fixed_destroy_burnupChart : frames fixed_part destroy_burnupChart.
Proof. apply frames_write. intro s. now destruct (burnupChart s). Qed.

Lemma fixed_new_burnupChart (cfg : ChartJs.configuration) :
  frames fixed_part (new_burnupChart cfg).
Proof.
  intro s. unfold new_burnupChart.
  now destruct (ChartJs.create cfg (chartjs s)) as [[c r]|].
Qed.

Lemma fixed_console_error (msg : string) :
  frames fixed_part (console_error msg).
Proof. now apply frames_write. Qed.

Lemma fixed_drawChart (sprintData : SprintRecord)
  (userKey chartTitle : string) (showIdeal : bool) :
  frames fixed_part (drawChart sprintData userKey chartTitle showIdeal).
Proof.
  unfold drawChart. destruct (bundle_of sprintData userKey) as [chartData|].
  - apply frames_bind; [apply frames_property_of|]. intro ds.
    apply frames_bind; [apply frames_property_of|]. intro earned.
    apply frames_bind; [apply fixed_destroy_burnupChart|]. intros _.
    apply fixed_new_burnupChart.
  - apply frames_bind; [apply fixed_clear_burnupChart|]. intros _.
    apply fixed_console_error.
Qed.

Lemma fixed_drawEvPvChart (evPvData : SprintRecord) (chartTitle : string) :
  frames fixed_part (drawEvPvChart evPvData chartTitle).
Proof.
  unfold drawEvPvChart. destruct (bundle_of evPvData "overall") as [overall|];
    (apply frames_bind; [apply fixed_destroy_burnupChart|]; intros _).
  - apply fixed_new_burnupChart.
  - apply fixed_console_error.
Qed.

Lemma fixed_fullData_get (key : string) : frames fixed_part (fullData_get key).
Proof.
  unfold fullData_get. apply frames_bind; [apply frames_read|].
  intros [data|]; [apply frames_ret|apply frames_throw].
Qed.

Lemma fixed_updateSprintDashboard : frames fixed_part updateSprintDashboard.
Proof.
  unfold updateSprintDashboard.
  apply frames_bind; [apply frames_read|]. intro selectedSprint.
  apply frames_bind.
  { destruct (String.eqb selectedSprint "");
      [apply frames_ret|apply fixed_fullData_get]. }
  intros [sprintData|].
  - apply frames_bind.
    { intro s. now rewrite populateUserFilter_run. }
    intros _.
    apply frames_bind; [apply frames_read|]. intro selectedUser.
    apply frames_bind; [apply frames_read|]. intro sprintValue.
    apply frames_bind; [apply frames_read|]. intro selected.
    apply frames_bind; [apply frames_property_of|]. intro userOption.
    apply fixed_drawChart.
  - apply frames_bind; [apply fixed_clear_burnupChart|]. intros _.
    apply fixed_console_error.
Qed.

Lemma fixed_handleViewChange : frames fixed_part handleViewChange.
Proof.
  unfold handleViewChange.
  apply frames_bind; [apply frames_read|]. intro selectedView.
  apply frames_bind; [now apply frames_write|]. intros _.
  destruct (String.eqb selectedView "ev_pv").
  - apply frames_bind; [apply fixed_fullData_get|].
    intros [evPvData|]; [apply fixed_drawEvPvChart|apply frames_ret].
  - apply frames_bind; [now apply frames_write|]. intros _.
    apply fixed_updateSprintDashboard.
Qed.

Lemma fixed_run_handler (h : handler) : frames fixed_part (run_handler h).
Proof.
  destruct h; [apply fixed_handleViewChange|apply fixed_updateSprintDashboard].
Qed.

(** X1. Whatever is selected and however they end, by a return or by a throw,
    the two handlers write neither the dataset, nor the sprint selector, nor the
    view selector, nor the listeners, nor the chart container. *)
Theorem handlers_leave_fixed_part (h : handler) (s : State) :
  let s' := final_state (run_handler h s) in
  fullData s' = fullData s
  /\ sprintFilter s' = sprintFilter s
  /\ viewSelector s' = viewSelector s
  /\ listeners s' = listeners s
  /\ chartContainer s' = chartContainer s.
Proof.
  intro s'. pose proof (fixed_run_handler h s) as H. fold s' in H.
  unfold fixed_part in H. injection H as H1 H2 H3 H4 H5.
  now repeat split.
Qed.

(** ** The sprint selector over a session *)














(** ** Initialization *)


(** A response with a non-success status is never parsed: whatever its body,
    the "data.json not found" message is logged and written over the chart
    container, and nothing else of the page changes; a body that parses to a
    falsy value ends the same way with the "empty or invalid" message, the
    dataset being [null]. *)
Lemma unusable_response_is_reported (content : body) (s : State) :
  initializeDashboard (Response false content) s
  = Ok tt (set_chartContainer
             (Some (error_markup data_unavailable))
             (set_console
                (console s ++ [initialization_error data_unavailable]) s))
  /\ initializeDashboard (Response true Falsy) s
     = Ok tt (set_chartContainer
                (Some (error_markup data_empty))
                (set_console
                   (console s ++ [initialization_error data_empty])
                   (set_fullData None s))).
Proof. split; reflexivity. Qed.

(** X6. A document that holds nothing but reserved records loads without the
    error message: with the sprint view selected, [initializeDashboard] returns
    with the three listeners registered and the chart container as it was, the
    sprint selector empty, the user selector untouched, and one console line
    that says no data was found for the sprint of empty name. *)
Theorem reserved_only_document_loads (data : SprintDataset) (s : State) :
  data <> [] ->
  filter is_sprint_name (Js.keys data) = [] ->
  Dom.get_value (viewSelector s) <> "ev_pv" ->
  exists s',
    initializeDashboard (Response true (Document data)) s = Ok tt s'
    /\ console s' = (console s ++ [sprint_not_found ""])%list
    /\ listeners s' = (listeners s ++ registered_listeners)%list
    /\ chartContainer s' = chartContainer s
    /\ burnupChart s' = burnupChart s
    /\ sprintFilter s' = Dom.cleared
    /\ userFilter s' = userFilter s
    /\ sprintControls s' = "flex".
Proof.
  intros Hne Hnames Hview. apply String.eqb_neq in Hview.
  unfold initializeDashboard, try_catch.
  unfold bind at 1, write at 1.
  destruct data as [|entry rest]; [congruence|].
  cbn [List.length Js.keys map Nat.eqb] in *.
  unfold bind at 1. rewrite populateSprintFilter_run. cbv zeta.
  change (filter (fun name => negb (String.eqb name "All Time")
                              && negb (String.eqb name "EV/PV"))
                 (fst entry :: map fst rest))
    with (filter is_sprint_name (fst entry :: map fst rest)).
  rewrite Hnames. cbn [Js.sort map].
  unfold bind at 1, handleViewChange.
  unfold bind at 1 2, read at 1, write at 1.
  cbn [viewSelector set_sprintFilter set_fullData]. rewrite Hview.
  unfold bind at 1, write at 1.
  rewrite updateSprintDashboard_nothing_selected by reflexivity.
  eexists. split; [reflexivity|].
  cbn [console listeners chartContainer burnupChart sprintFilter userFilter
       sprintControls set_listeners set_console set_chartjs
       set_sprintControls set_sprintFilter set_fullData].
  rewrite <- !app_assoc. now repeat split.
Qed.

Lemma reserved_only_document_loads_witness :
  sample_data_ev_pv_only <> []
  /\ filter is_sprint_name (Js.keys sample_data_ev_pv_only) = []
  /\ Dom.get_value (viewSelector initial_state) <> "ev_pv"
  /\ exists s',
      initializeDashboard (Response true (Document sample_data_ev_pv_only))
                          initial_state = Ok tt s'
      /\ console s' = (console initial_state ++ [sprint_not_found ""])%list
      /\ listeners s'
         = (listeners initial_state ++ registered_listeners)%list
      /\ chartContainer s' = chartContainer initial_state
      /\ burnupChart s' = burnupChart initial_state
      /\ sprintFilter s' = Dom.cleared
      /\ userFilter s' = userFilter initial_state
      /\ sprintControls s' = "flex".
Proof.
  assert (H1 : sample_data_ev_pv_only <> []) by discriminate.
  assert (H2 : filter is_sprint_name (Js.keys sample_data_ev_pv_only) = [])
    by reflexivity.
  assert (H3 : Dom.get_value (viewSelector initial_state) <> "ev_pv")
    by (vm_compute; discriminate).
  repeat (split; [assumption|]).
  exact (reserved_only_document_loads _ _ H1 H2 H3).
Defined.



(** ** Drawing *)

(** X8. When the record has a bundle for the user key but no [dates], or the
    bundle has no [earnedHours], [drawChart] throws a [TypeError] before it
    touches anything: the chart that is there is neither cleared nor destroyed,
    and nothing is logged. *)
Theorem drawChart_incomplete_record_throws
  (sprintData : SprintRecord) (chartData : SeriesBundle)
  (userKey chartTitle : string) (showIdeal : bool) (s : State) :
  bundle_of sprintData userKey = Some chartData ->
  dates sprintData = None \/ earnedHours chartData = None ->
  exists msg,
    drawChart sprintData userKey chartTitle showIdeal s
    = Throw (TypeError msg) s.
Proof.
  intros Hb Hmissing. unfold drawChart. rewrite Hb.
  destruct (dates sprintData) as [ds|]; [|now eexists].
  destruct Hmissing as [Hd|He]; [discriminate|]. rewrite He. now eexists.
Qed.

Lemma drawChart_incomplete_record_throws_witness :
  let sprintData :=
    mkRecord None (Some ["Ann"]) (Some [("overall", sample_bundle)]) in
  bundle_of sprintData "overall" = Some sample_bundle
  /\ (dates sprintData = None \/ earnedHours sample_bundle = None)
  /\ exists msg,
      drawChart sprintData "overall" "Burn-Up: Sprint 1 - Overall Team" true
                (loaded sample_data)
      = Throw (TypeError msg) (loaded sample_data).
Proof.
  intro sprintData.
  assert (H1 : bundle_of sprintData "overall" = Some sample_bundle)
    by reflexivity.
  assert (H2 : dates sprintData = None \/ earnedHours sample_bundle = None)
    by (left; reflexivity).
  split; [exact H1|]. split; [exact H2|].
  exact (drawChart_incomplete_record_throws
           sprintData sample_bundle "overall" _ true _ H1 H2).
Defined.

(** X9. When the EV/PV record has no [overall] bundle, [drawEvPvChart] destroys
    the chart that is there, so that no instance is live any more, leaves
    [state.burnupChart] referring to the destroyed chart, logs one line and
    returns. *)
Theorem drawEvPvChart_without_bundle_destroys
  (evPvData : SprintRecord) (chartTitle : string) (s : State) :
  bundle_of evPvData "overall" = None ->
  one_chart s ->
  exists s',
    drawEvPvChart evPvData chartTitle s = Ok tt s'
    /\ ChartJs.instances (chartjs s') = []
    /\ burnupChart s' = burnupChart s
    /\ console s' = (console s ++ ["EV/PV data not found."])%list.
Proof.
  intros Hb Hone. unfold drawEvPvChart. rewrite Hb. unfold bind.
  destruct (destroy_burnupChart_empties s Hone) as (s1 & -> & He & _ & Hs1).
  eexists. split; [reflexivity|].
  cbn [chartjs burnupChart console set_console]. rewrite Hs1.
  cbn [chartjs burnupChart console set_chartjs]. now repeat split.
Qed.

Lemma drawEvPvChart_without_bundle_destroys_witness :
  let evPvData := mkRecord (Some ["05-19"]) None None in
  let s := loaded sample_data in
  bundle_of evPvData "overall" = None
  /\ one_chart s
  /\ ChartJs.instances (chartjs s) = [0%nat]
  /\ exists s',
      drawEvPvChart evPvData "Performance" s = Ok tt s'
      /\ ChartJs.instances (chartjs s') = []
      /\ burnupChart s' = burnupChart s
      /\ console s' = (console s ++ ["EV/PV data not found."])%list.
Proof.
  intros evPvData s.
  assert (H1 : bundle_of evPvData "overall" = None) by reflexivity.
  assert (H2 : one_chart s).
  { right. eexists. split; vm_compute; reflexivity. }
  split; [exact H1|]. split; [exact H2|].
  split; [vm_compute; reflexivity|].
  exact (drawEvPvChart_without_bundle_destroys evPvData "Performance" s H1 H2).
Defined.

(** X10. With the EV/PV view selected and a record under "EV/PV" that has an
    [overall] bundle, [handleViewChange] hides the sprint controls and draws one
    new chart over the record's dates, of the two series Earned Value and
    Planned Value, titled as the all-time comparison against an axis of
    cumulative story points; it logs nothing and leaves both filters alone. *)
Theorem handleViewChange_draws_ev_pv
  (s : State) (data : SprintDataset) (evPvData : SprintRecord)
  (overall : SeriesBundle) :
  fullData s = Some data ->
  Dom.get_value (viewSelector s) = "ev_pv" ->
  Js.get "EV/PV" data = Some evPvData ->
  bundle_of evPvData "overall" = Some overall ->
  one_chart s ->
  exists s' cfg,
    handleViewChange s = Ok tt s'
    /\ chart_configuration s' = Some cfg
    /\ ChartJs.labels cfg = dates evPvData
    /\ map ChartJs.label (ChartJs.datasets cfg)
       = ["Earned Value (EV)"; "Planned Value (PV)"]
    /\ map ChartJs.data (ChartJs.datasets cfg)
       = [earnedValue overall; plannedValue overall]
    /\ ChartJs.title_text (ChartJs.plugins_title (ChartJs.chart_options cfg))
       = "Performance: Earned Value vs. Planned Value (All Time)"
    /\ ChartJs.title_text
         (ChartJs.y_title (ChartJs.scales_y (ChartJs.chart_options cfg)))
       = "Cumulative Story Points"
    /\ ChartJs.instances (chartjs s') = [ChartJs.next_id (chartjs s)]
    /\ sprintControls s' = "none"
    /\ console s' = console s
    /\ sprintFilter s' = sprintFilter s
    /\ userFilter s' = userFilter s.
Proof.
  intros Hdata Hview Hget Hb Hone.
  unfold handleViewChange, bind at 1 2, read at 1, write at 1.
  rewrite Hview. cbn [String.eqb Ascii.eqb Bool.eqb].
  unfold fullData_get, bind at 1 2, read at 1.
  cbn [fullData set_sprintControls]. rewrite Hdata. unfold ret at 1.
  rewrite Hget. unfold drawEvPvChart. rewrite Hb. unfold bind.
  set (s0 := set_sprintControls "none" s).
  assert (Hone0 : one_chart s0) by exact Hone.
  destruct (destroy_burnupChart_empties s0 Hone0)
    as (s1 & -> & He & Hn & Hs1).
  rewrite (new_burnupChart_on_free_canvas _ s1 He).
  eexists. eexists. split; [reflexivity|].
  unfold chart_configuration.
  cbn [burnupChart chartjs set_burnupChart set_chartjs option_map
       ChartJs.config ChartJs.labels ChartJs.datasets ChartJs.chart_options
       ChartJs.instances sprintControls console sprintFilter userFilter].
  rewrite Hn, Hs1. now repeat split.
Qed.

Lemma handleViewChange_draws_ev_pv_witness :
  let s := apply_pick (PickView 1) (loaded sample_data) in
  fullData s = Some sample_data
  /\ Dom.get_value (viewSelector s) = "ev_pv"
  /\ Js.get "EV/PV" sample_data = Some sample_ev_pv
  /\ one_chart s
  /\ exists s' cfg,
      handleViewChange s = Ok tt s'
      /\ chart_configuration s' = Some cfg
      /\ ChartJs.labels cfg = dates sample_ev_pv
      /\ map ChartJs.label (ChartJs.datasets cfg)
         = ["Earned Value (EV)"; "Planned Value (PV)"]
      /\ map ChartJs.data (ChartJs.datasets cfg)
         = [Some [Some 3; Some 8]%Q; Some [Some 5; Some 10]%Q]
      /\ ChartJs.title_text
           (ChartJs.plugins_title (ChartJs.chart_options cfg))
         = "Performance: Earned Value vs. Planned Value (All Time)"
      /\ ChartJs.title_text
           (ChartJs.y_title (ChartJs.scales_y (ChartJs.chart_options cfg)))
         = "Cumulative Story Points"
      /\ ChartJs.instances (chartjs s') = [ChartJs.next_id (chartjs s)]
      /\ sprintControls s' = "none"
      /\ console s' = console s
      /\ sprintFilter s' = sprintFilter s
      /\ userFilter s' = userFilter s.
Proof.
  intro s.
  assert (H1 : fullData s = Some sample_data) by (vm_compute; reflexivity).
  assert (H2 : Dom.get_value (viewSelector s) = "ev_pv")
    by (vm_compute; reflexivity).
  assert (H3 : Js.get "EV/PV" sample_data = Some sample_ev_pv)
    by reflexivity.
  assert (H4 : one_chart s).
  { right. eexists. split; vm_compute; reflexivity. }
  repeat (split; [assumption|]).
  exact (handleViewChange_draws_ev_pv s sample_data sample_ev_pv _
           H1 H2 H3 eq_refl H4).
Defined.





(** ** The ideal line and the axis top, as numbers *)












(** ** Records that lack a series *)

Lemma updateSprintDashboard_incomplete_record_throws_aux
  (s : State) (data : SprintDataset) (sprintData : SprintRecord)
  (chartData : SeriesBundle) :
  fullData s = Some data ->
  Dom.get_value (sprintFilter s) <> "" ->
  Js.get (Dom.get_value (sprintFilter s)) data = Some sprintData ->
  bundle_of sprintData
            (kept_user (users sprintData) (Dom.get_value (userFilter s)))
  = Some chartData ->
  dates sprintData = None \/ earnedHours chartData = None ->
  exists msg,
    updateSprintDashboard s
    = Throw (TypeError msg) (repopulated (users sprintData) s).
Proof.
  intros Hdata Hne Hget Hb Hmissing.
  rewrite (updateSprintDashboard_record s data sprintData Hdata Hne Hget).
  cbv zeta. unfold repopulated at 1. rewrite kept_user_selected.
  unfold drawChart. rewrite Hb.
  destruct (dates sprintData) as [ds|]; [|now eexists].
  destruct Hmissing as [Hd|He]; [discriminate|]. rewrite He. now eexists.
Qed.

(** X12. When the record of the selected sprint has a bundle for the user key
    the user selector keeps, but no [dates], or the bundle has no [earnedHours],
    [updateSprintDashboard] throws a [TypeError] after it has repopulated the
    user selector and before it touches the chart: apart from the user selector
    the page is as it was. *)
Theorem updateSprintDashboard_incomplete_record_throws
  (s : State) (data : SprintDataset) (sprintData : SprintRecord)
  (chartData : SeriesBundle) :
  fullData s = Some data ->
  Dom.get_value (sprintFilter s) <> "" ->
  Js.get (Dom.get_value (sprintFilter s)) data = Some sprintData ->
  bundle_of sprintData
            (kept_user (users sprintData) (Dom.get_value (userFilter s)))
  = Some chartData ->
  dates sprintData = None \/ earnedHours chartData = None ->
  exists msg,
    updateSprintDashboard s
    = Throw (TypeError msg)
            (set_userFilter
               (populated (users sprintData) (userFilter s)) s).
Proof.
  intros Hdata Hne Hget Hb Hmissing.
  destruct (updateSprintDashboard_incomplete_record_throws_aux
              s data sprintData chartData Hdata Hne Hget Hb Hmissing)
    as (msg & Hthrow).
  exists msg. rewrite Hthrow. f_equal.
  rewrite repopulated_frame. now rewrite userFilter_repopulated.
Qed.

Lemma updateSprintDashboard_incomplete_record_throws_witness :
  let undated :=
    mkRecord None (Some ["Ann"]) (Some [("overall", sample_bundle)]) in
  let data := [("Sprint 3", undated)] in
  let s := set_sprintFilter
             (Dom.mkSelect [option_for "Sprint 3"] (Some 0%nat))
             (set_fullData (Some data) initial_state) in
  exists msg,
    updateSprintDashboard s
    = Throw (TypeError msg)
            (set_userFilter (populated (Some ["Ann"]) (userFilter s)) s).
Proof.
  intros undated data s.
  refine (updateSprintDashboard_incomplete_record_throws
            s data undated sample_bundle _ _ _ _ _);
    try (vm_compute; reflexivity).
  - vm_compute. discriminate.
  - left. reflexivity.
Defined.



(** ** Leaving the sprint view and coming back *)











